(** * Formly: the synthetic tax-document generator (eval/generate_tax_docs.py)

    A shallow embedding of the script: Python floats as IEEE binary64
    (the Standard Library's [spec_float] at precision 53), the reportlab
    canvas as a record of graphics state threaded through every drawing
    call, dictionaries as finite maps, and [main] as a function on a
    world made of the files written and the lines printed. *)

From Stdlib Require Import ZArith List String Ascii DecimalString Lia.
From Stdlib Require Import SpecFloat.
From stdpp Require Import base strings gmap.
Import ListNotations.

Local Open Scope string_scope.
Local Open Scope Z_scope.

(** ** Python floats *)

Module PyFloat.

(** A Python [float] is an IEEE 754 binary64 number. *)
Definition prec : Z := 53.
Definition emax : Z := 1024.

Abbreviation float := spec_float.

(** [float(n)] for an integer [n] (exact below 2^53, rounded above). *)
Definition of_int (n : Z) : float := binary_normalize prec emax n 0 false.

Definition mul (x y : float) : float := SFmul prec emax x y.
Definition add (x y : float) : float := SFadd prec emax x y.
Definition sub (x y : float) : float := SFsub prec emax x y.
Definition div (x y : float) : float := SFdiv prec emax x y.
Definition ltb (x y : float) : bool := SFltb x y.
Definition leb (x y : float) : bool := SFleb x y.

(** The literal written [m] followed by [k] digits after the point,
    that is the decimal [m / 10^k]: Python reads it as the nearest
    binary64 number.  Both [m] and [10^k] are exact here (all the
    literals of the script have [m < 2^53] and [k <= 22]), so one
    correctly rounded division yields that nearest number. *)
Definition lit (m : Z) (k : Z) : float := div (of_int m) (of_int (10 ^ k)).

(** *** [format(x, ",.2f")] *)

(** [n * 2^e] rounded to the nearest integer, ties to even: the fixed
    notation of Python rounds the exact binary value this way. *)
Definition round_half_even_scaled (n : Z) (e : Z) : Z :=
  if 0 <=? e then n * 2 ^ e
  else
    let d := 2 ^ (- e) in
    let q := n / d in
    let r := n mod d in
    match 2 * r ?= d with
    | Lt => q
    | Gt => q + 1
    | Eq => if Z.even q then q else q + 1
    end.

(** Hundredths of [m * 2^e], as an integer. *)
Definition cents (m : positive) (e : Z) : Z :=
  round_half_even_scaled (Z.pos m * 100) e.

Definition digits (n : Z) : string :=
  NilZero.string_of_uint (N.to_uint (Z.to_N n)).

(** The [,] option: a comma before every group of three digits,
    counted from the right. *)
Fixpoint group3_rev (ds : list ascii) : list ascii :=
  match ds with
  | a :: b :: c :: ((_ :: _) as rest) =>
      a :: b :: c :: ","%char :: group3_rev rest
  | _ => ds
  end.

Definition thousands (s : string) : string :=
  string_of_list_ascii
    (rev (group3_rev (rev (list_ascii_of_string s)))).

Definition two_digits (n : Z) : string :=
  (if n <? 10 then "0" else "") +:+ digits n.

Definition format_2f (x : float) : string :=
  match x with
  | S754_nan => "nan"
  | S754_infinity s => if s then "-inf" else "inf"
  | S754_zero s => if s then "-0.00" else "0.00"
  | S754_finite s m e =>
      let c := cents m e in
      (if s then "-" else "")
        +:+ thousands (digits (c / 100)) +:+ "." +:+ two_digits (c mod 100)
  end.

(** The f-string [f"${x:,.2f}"]. *)
Definition format_money (x : float) : string := "$" +:+ format_2f x.

End PyFloat.

Import PyFloat.

(** Numerals of the script, read as Python reads them: [0.22] is the
    binary64 number nearest to 22/100, [75432.00] and [16] are exact. *)
Definition of_number (n : Number.number) : option float :=
  match n with
  | Number.Decimal (Decimal.Decimal i f) =>
      Some (lit (Z.of_int (Decimal.app_int i f)) (Z.of_nat (Decimal.nb_digits f)))
  | _ => None
  end.

Definition to_number (x : float) : option Number.number := None.

Declare Scope py_scope.
Delimit Scope py_scope with py.
Number Notation spec_float of_number to_number : py_scope.
Infix "*" := mul : py_scope.
Infix "/" := div : py_scope.
Infix "+" := add : py_scope.
Infix "-" := sub : py_scope.

(** ** The reportlab names the script imports *)

(** [reportlab.lib.units.inch] and [reportlab.lib.pagesizes.letter]:
    72 points to the inch, a page of 8.5 by 11 inches. *)
Definition inch : float := (72.0)%py.
Definition letter : float * float := ((8.5 * inch)%py, (11 * inch)%py).

(** [reportlab.lib.colors]: the three colours the script uses, with the
    HTML values the library gives them (0x000000, 0x808080, 0xD3D3D3). *)
Inductive Color := black | gray | lightgrey.

Definition hex (k : Color) : Z :=
  match k with
  | black => 0x000000
  | gray => 0x808080
  | lightgrey => 0xD3D3D3
  end.

Definition channels (k : Color) : Z * Z * Z :=
  (Z.shiftr (hex k) 16, Z.land (Z.shiftr (hex k) 8) 0xFF, Z.land (hex k) 0xFF).

(** [lighter a b]: no channel of [a] is below that of [b], and one is
    strictly above. *)
Definition lighter (a b : Color) : bool :=
  let '(ra, ga, ba) := channels a in
  let '(rb, gb, bb) := channels b in
  (rb <=? ra) && (gb <=? ga) && (bb <=? ba)
  && ((rb <? ra) || (gb <? ga) || (bb <? ba)).

#[global] Instance Color_eq_dec : EqDecision Color.
Proof. solve_decision. Defined.

(** ** The canvas *)

(** What ends up on the page: a string with the font and fill colour in
    force when it was drawn, or a stroked shape with the line width and
    stroke colour in force. *)
Inductive Mark :=
| Text (x y : float) (text : string) (font : string) (size : Z) (fill : Color)
| Rect (x y width height : float) (lineWidth : float) (stroke : Color)
| Line (x1 y1 x2 y2 : float) (lineWidth : float) (stroke : Color).

(** The method calls made on a canvas, in order. *)
Inductive Call :=
| CsetFont (name : string) (size : Z)
| CsetFillColor (k : Color)
| CsetStrokeColor (k : Color)
| CsetLineWidth (w : float)
| CdrawString (x y : float) (text : string)
| Crect (x y width height : float)
| Cline (x1 y1 x2 y2 : float).

Record Canvas := mkCanvas {
  filename : string;
  pagesize : float * float;
  fontName : string;
  fontSize : Z;
  fillColor : Color;
  strokeColor : Color;
  lineWidth : float;
  page : list Mark;
  calls : list Call
}.

(** [canvas.Canvas(filename, pagesize=...)]: an empty page, Helvetica 12,
    black fill and stroke, line width 1 (the defaults of the PDF graphics
    state). *)
Definition Canvas_new (filename : string) (pagesize : float * float) : Canvas :=
  mkCanvas filename pagesize "Helvetica" 12 black black (1)%py [] [].

Definition setFont (c : Canvas) (name : string) (size : Z) : Canvas :=
  mkCanvas (filename c) (pagesize c) name size (fillColor c) (strokeColor c)
    (lineWidth c) (page c) (calls c ++ [CsetFont name size]).

Definition setFillColor (c : Canvas) (k : Color) : Canvas :=
  mkCanvas (filename c) (pagesize c) (fontName c) (fontSize c) k (strokeColor c)
    (lineWidth c) (page c) (calls c ++ [CsetFillColor k]).

Definition setStrokeColor (c : Canvas) (k : Color) : Canvas :=
  mkCanvas (filename c) (pagesize c) (fontName c) (fontSize c) (fillColor c) k
    (lineWidth c) (page c) (calls c ++ [CsetStrokeColor k]).

Definition setLineWidth (c : Canvas) (w : float) : Canvas :=
  mkCanvas (filename c) (pagesize c) (fontName c) (fontSize c) (fillColor c)
    (strokeColor c) w (page c) (calls c ++ [CsetLineWidth w]).

Definition drawString (c : Canvas) (x y : float) (text : string) : Canvas :=
  mkCanvas (filename c) (pagesize c) (fontName c) (fontSize c) (fillColor c)
    (strokeColor c) (lineWidth c)
    (page c ++ [Text x y text (fontName c) (fontSize c) (fillColor c)])
    (calls c ++ [CdrawString x y text]).

(** [rect] with its defaults [stroke=1, fill=0]: an outline. *)
Definition rect (c : Canvas) (x y width height : float) : Canvas :=
  mkCanvas (filename c) (pagesize c) (fontName c) (fontSize c) (fillColor c)
    (strokeColor c) (lineWidth c)
    (page c ++ [Rect x y width height (lineWidth c) (strokeColor c)])
    (calls c ++ [Crect x y width height]).

Definition line (c : Canvas) (x1 y1 x2 y2 : float) : Canvas :=
  mkCanvas (filename c) (pagesize c) (fontName c) (fontSize c) (fillColor c)
    (strokeColor c) (lineWidth c)
    (page c ++ [Line x1 y1 x2 y2 (lineWidth c) (strokeColor c)])
    (calls c ++ [Cline x1 y1 x2 y2]).

(** ** The layout routines *)

Definition OUTPUT_DIR : string := "docs".

(** Default values of the keyword parameters of [draw_w2]. *)
Module W2.
Definition employee_name : string := "John Q. Taxpayer".
Definition employee_ssn : string := "XXX-XX-1234".
Definition ein : string := "12-3456789".
Definition year : string := "2024".
Definition is_blank : bool := false.
Definition low_quality : bool := false.
End W2.

Local Open Scope py_scope.

Definition draw_w2 (c : Canvas) (employer_name : string) (wages : float)
    (employee_name employee_ssn ein year : string)
    (is_blank low_quality : bool) : Canvas :=
  let '(width, height) := letter in
  (* Title *)
  let c := setFont c "Helvetica-Bold" 16 in
  let c := drawString c (1*inch) (height - 0.75*inch)
             ("Form W-2 Wage and Tax Statement " +:+ year) in
  (* Form border *)
  let c := setStrokeColor c black in
  let c := setLineWidth c 2 in
  let c := rect c (0.5*inch) (1*inch) (width - 1*inch) (height - 1.5*inch) in
  (* Grid lines *)
  let c := setLineWidth c 0.5 in
  let y_positions := [height - 1.5*inch; height - 2.5*inch; height - 3.5*inch;
                      height - 4.5*inch; height - 5.5*inch; height - 6.5*inch] in
  let c := fold_left (fun c y => line c (0.5*inch) y (width - 0.5*inch) y)
             y_positions c in
  (* Vertical divider *)
  let c := line c (width/2) (height - 1.5*inch) (width/2) (height - 6.5*inch) in
  (* Labels and values *)
  let c := setFont c "Helvetica" 8 in
  (* Box a - Employee's SSN *)
  let c := drawString c (0.6*inch) (height - 1.35*inch)
             "a Employee's social security number" in
  let c :=
    if negb is_blank then
      let c := setFont c "Helvetica-Bold" 11 in
      let c := if low_quality then setFillColor c lightgrey else c in
      let c := drawString c (0.6*inch) (height - 1.7*inch) employee_ssn in
      setFillColor c black
    else c in
  (* Box b - Employer ID *)
  let c := setFont c "Helvetica" 8 in
  let c := drawString c (0.6*inch) (height - 2.35*inch)
             "b Employer identification number (EIN)" in
  let c :=
    if negb is_blank then
      let c := setFont c "Helvetica-Bold" 11 in
      drawString c (0.6*inch) (height - 2.7*inch) ein
    else c in
  (* Box c - Employer name and address *)
  let c := setFont c "Helvetica" 8 in
  let c := drawString c (0.6*inch) (height - 3.35*inch)
             "c Employer's name, address, and ZIP code" in
  let c :=
    if negb is_blank then
      let c := setFont c "Helvetica-Bold" 11 in
      let c := if low_quality then setFillColor c gray else c in
      let c := drawString c (0.6*inch) (height - 3.7*inch) employer_name in
      let c := setFillColor c black in
      let c := setFont c "Helvetica" 10 in
      let c := drawString c (0.6*inch) (height - 3.95*inch) "123 Business Ave" in
      drawString c (0.6*inch) (height - 4.15*inch) "Anytown, ST 12345"
    else c in
  (* Box e - Employee name *)
  let c := setFont c "Helvetica" 8 in
  let c := drawString c (0.6*inch) (height - 4.85*inch)
             "e Employee's first name and initial    Last name" in
  let c :=
    if negb is_blank then
      let c := setFont c "Helvetica-Bold" 11 in
      drawString c (0.6*inch) (height - 5.2*inch) employee_name
    else c in
  (* Box f - Employee address *)
  let c := setFont c "Helvetica" 8 in
  let c := drawString c (0.6*inch) (height - 5.85*inch)
             "f Employee's address and ZIP code" in
  let c :=
    if negb is_blank then
      let c := setFont c "Helvetica" 10 in
      drawString c (0.6*inch) (height - 6.2*inch)
        "456 Home Street, Hometown, ST 67890"
    else c in
  (* Right side - wage boxes *)
  (* Box 1 - Wages *)
  let c := setFont c "Helvetica" 8 in
  let c := drawString c (width/2 + 0.1*inch) (height - 1.35*inch)
             "1 Wages, tips, other compensation" in
  let c :=
    if negb is_blank then
      let c := setFont c "Helvetica-Bold" 12 in
      let c := if low_quality then setFillColor c lightgrey else c in
      let c := drawString c (width/2 + 0.1*inch) (height - 1.7*inch)
                 (format_money wages) in
      setFillColor c black
    else c in
  (* Box 2 - Federal tax withheld *)
  let c := setFont c "Helvetica" 8 in
  let c := drawString c (width/2 + 0.1*inch) (height - 2.35*inch)
             "2 Federal income tax withheld" in
  let c :=
    if negb is_blank then
      let c := setFont c "Helvetica-Bold" 12 in
      let fed_tax := wages * 0.22 in
      drawString c (width/2 + 0.1*inch) (height - 2.7*inch) (format_money fed_tax)
    else c in
  (* Box 3 - Social security wages *)
  let c := setFont c "Helvetica" 8 in
  let c := drawString c (width/2 + 0.1*inch) (height - 3.35*inch)
             "3 Social security wages" in
  let c :=
    if negb is_blank then
      let c := setFont c "Helvetica-Bold" 12 in
      drawString c (width/2 + 0.1*inch) (height - 3.7*inch) (format_money wages)
    else c in
  (* Box 4 - Social security tax withheld *)
  let c := setFont c "Helvetica" 8 in
  let c := drawString c (width/2 + 0.1*inch) (height - 4.35*inch)
             "4 Social security tax withheld" in
  let c :=
    if negb is_blank then
      let c := setFont c "Helvetica-Bold" 12 in
      let ss_tax := wages * 0.062 in
      drawString c (width/2 + 0.1*inch) (height - 4.7*inch) (format_money ss_tax)
    else c in
  (* Box 5 - Medicare wages *)
  let c := setFont c "Helvetica" 8 in
  let c := drawString c (width/2 + 0.1*inch) (height - 5.35*inch)
             "5 Medicare wages and tips" in
  let c :=
    if negb is_blank then
      let c := setFont c "Helvetica-Bold" 12 in
      drawString c (width/2 + 0.1*inch) (height - 5.7*inch) (format_money wages)
    else c in
  (* Box 6 - Medicare tax withheld *)
  let c := setFont c "Helvetica" 8 in
  let c := drawString c (width/2 + 0.1*inch) (height - 6.35*inch)
             "6 Medicare tax withheld" in
  let c :=
    if negb is_blank then
      let c := setFont c "Helvetica-Bold" 12 in
      let med_tax := wages * 0.0145 in
      drawString c (width/2 + 0.1*inch) (height - 6.7*inch) (format_money med_tax)
    else c in
  (* Footer *)
  let c := setFont c "Helvetica" 8 in
  let c := drawString c (0.6*inch) (0.6*inch)
             "Department of the Treasury - Internal Revenue Service" in
  drawString c (width - 2.5*inch) (0.6*inch) ("Form W-2 (" +:+ year +:+ ")").

(** Default values of the keyword parameters of [draw_1099nec]. *)
Module NEC.
Definition recipient_name : string := "Jane D. Contractor".
Definition recipient_tin : string := "XXX-XX-5678".
Definition payer_tin : string := "98-7654321".
Definition year : string := "2024".
End NEC.

Definition draw_1099nec (c : Canvas) (payer_name : string) (compensation : float)
    (recipient_name recipient_tin payer_tin year : string) : Canvas :=
  let '(width, height) := letter in
  (* Title *)
  let c := setFont c "Helvetica-Bold" 16 in
  let c := drawString c (1*inch) (height - 0.75*inch)
             ("Form 1099-NEC Nonemployee Compensation " +:+ year) in
  (* Form border *)
  let c := setStrokeColor c black in
  let c := setLineWidth c 2 in
  let c := rect c (0.5*inch) (2*inch) (width - 1*inch) (height - 2.5*inch) in
  (* Payer info box *)
  let c := setLineWidth c 1 in
  let c := rect c (0.6*inch) (height - 3*inch) (3.5*inch) (2*inch) in
  let c := setFont c "Helvetica" 8 in
  let c := drawString c (0.7*inch) (height - 1.2*inch)
             "PAYER'S name, street address, city or town, state or province," in
  let c := drawString c (0.7*inch) (height - 1.35*inch)
             "country, ZIP or foreign postal code, and telephone no." in
  let c := setFont c "Helvetica-Bold" 11 in
  let c := drawString c (0.7*inch) (height - 1.7*inch) payer_name in
  let c := setFont c "Helvetica" 10 in
  let c := drawString c (0.7*inch) (height - 1.95*inch) "789 Client Road" in
  let c := drawString c (0.7*inch) (height - 2.15*inch) "Business City, ST 11111" in
  (* Payer TIN *)
  let c := setFont c "Helvetica" 8 in
  let c := drawString c (0.7*inch) (height - 2.5*inch) "PAYER'S TIN" in
  let c := setFont c "Helvetica-Bold" 11 in
  let c := drawString c (0.7*inch) (height - 2.8*inch) payer_tin in
  (* Recipient info *)
  let c := setFont c "Helvetica" 8 in
  let c := drawString c (0.6*inch) (height - 3.5*inch) "RECIPIENT'S TIN" in
  let c := setFont c "Helvetica-Bold" 11 in
  let c := drawString c (0.6*inch) (height - 3.8*inch) recipient_tin in
  let c := setFont c "Helvetica" 8 in
  let c := drawString c (0.6*inch) (height - 4.2*inch) "RECIPIENT'S name" in
  let c := setFont c "Helvetica-Bold" 11 in
  let c := drawString c (0.6*inch) (height - 4.5*inch) recipient_name in
  let c := setFont c "Helvetica" 10 in
  let c := drawString c (0.6*inch) (height - 4.9*inch) "321 Freelance Lane" in
  let c := drawString c (0.6*inch) (height - 5.1*inch) "Worktown, ST 22222" in
  (* Box 1 - Nonemployee compensation (the main one) *)
  let c := setLineWidth c 1 in
  let c := rect c (width/2 + 0.5*inch) (height - 2.5*inch) (2.5*inch) (1.2*inch) in
  let c := setFont c "Helvetica" 8 in
  let c := drawString c (width/2 + 0.6*inch) (height - 1.5*inch)
             "1 Nonemployee compensation" in
  let c := setFont c "Helvetica-Bold" 14 in
  let c := drawString c (width/2 + 0.6*inch) (height - 2*inch)
             (format_money compensation) in
  (* Box 4 - Federal tax withheld *)
  let c := rect c (width/2 + 0.5*inch) (height - 4*inch) (2.5*inch) (1.2*inch) in
  let c := setFont c "Helvetica" 8 in
  let c := drawString c (width/2 + 0.6*inch) (height - 3*inch)
             "4 Federal income tax withheld" in
  let c := setFont c "Helvetica-Bold" 12 in
  let c := drawString c (width/2 + 0.6*inch) (height - 3.5*inch) "$0.00" in
  (* Footer *)
  let c := setFont c "Helvetica" 8 in
  let c := drawString c (0.6*inch) (1.6*inch)
             ("Form 1099-NEC (Rev. 1-" +:+ year +:+ ")") in
  drawString c (0.6*inch) (1.4*inch)
    "Department of the Treasury - Internal Revenue Service".

(** Default values of the keyword parameters of [draw_1099int]. *)
Module INT.
Definition recipient_name : string := "John Q. Taxpayer".
Definition recipient_tin : string := "XXX-XX-1234".
Definition payer_tin : string := "11-2233445".
Definition year : string := "2024".
End INT.

Definition draw_1099int (c : Canvas) (payer_name : string) (interest : float)
    (recipient_name recipient_tin payer_tin year : string) : Canvas :=
  let '(width, height) := letter in
  (* Title *)
  let c := setFont c "Helvetica-Bold" 16 in
  let c := drawString c (1*inch) (height - 0.75*inch)
             ("Form 1099-INT Interest Income " +:+ year) in
  (* Form border *)
  let c := setStrokeColor c black in
  let c := setLineWidth c 2 in
  let c := rect c (0.5*inch) (2*inch) (width - 1*inch) (height - 2.5*inch) in
  (* Payer info *)
  let c := setLineWidth c 1 in
  let c := rect c (0.6*inch) (height - 3*inch) (3.5*inch) (2*inch) in
  let c := setFont c "Helvetica" 8 in
  let c := drawString c (0.7*inch) (height - 1.2*inch)
             "PAYER'S name, street address, city, state, ZIP code" in
  let c := setFont c "Helvetica-Bold" 11 in
  let c := drawString c (0.7*inch) (height - 1.6*inch) payer_name in
  let c := setFont c "Helvetica" 10 in
  let c := drawString c (0.7*inch) (height - 1.85*inch) "100 Finance Boulevard" in
  let c := drawString c (0.7*inch) (height - 2.05*inch) "Banking City, ST 33333" in
  let c := setFont c "Helvetica" 8 in
  let c := drawString c (0.7*inch) (height - 2.5*inch) "PAYER'S TIN" in
  let c := setFont c "Helvetica-Bold" 11 in
  let c := drawString c (0.7*inch) (height - 2.8*inch) payer_tin in
  (* Recipient *)
  let c := setFont c "Helvetica" 8 in
  let c := drawString c (0.6*inch) (height - 3.5*inch) "RECIPIENT'S TIN" in
  let c := setFont c "Helvetica-Bold" 11 in
  let c := drawString c (0.6*inch) (height - 3.8*inch) recipient_tin in
  let c := setFont c "Helvetica" 8 in
  let c := drawString c (0.6*inch) (height - 4.2*inch) "RECIPIENT'S name" in
  let c := setFont c "Helvetica-Bold" 11 in
  let c := drawString c (0.6*inch) (height - 4.5*inch) recipient_name in
  (* Box 1 - Interest income *)
  let c := setLineWidth c 1 in
  let c := rect c (width/2 + 0.5*inch) (height - 2.5*inch) (2.5*inch) (1.2*inch) in
  let c := setFont c "Helvetica" 8 in
  let c := drawString c (width/2 + 0.6*inch) (height - 1.5*inch)
             "1 Interest income" in
  let c := setFont c "Helvetica-Bold" 14 in
  let c := drawString c (width/2 + 0.6*inch) (height - 2*inch)
             (format_money interest) in
  (* Box 2 - Early withdrawal penalty *)
  let c := rect c (width/2 + 0.5*inch) (height - 4*inch) (2.5*inch) (1.2*inch) in
  let c := setFont c "Helvetica" 8 in
  let c := drawString c (width/2 + 0.6*inch) (height - 3*inch)
             "2 Early withdrawal penalty" in
  let c := setFont c "Helvetica-Bold" 12 in
  let c := drawString c (width/2 + 0.6*inch) (height - 3.5*inch) "$0.00" in
  (* Footer *)
  let c := setFont c "Helvetica" 8 in
  let c := drawString c (0.6*inch) (1.6*inch) ("Form 1099-INT (" +:+ year +:+ ")") in
  drawString c (0.6*inch) (1.4*inch)
    "Department of the Treasury - Internal Revenue Service".

(** Default values of the keyword parameters of [draw_1099div]. *)
Module DIV.
Definition recipient_name : string := "John Q. Taxpayer".
Definition recipient_tin : string := "XXX-XX-1234".
Definition payer_tin : string := "55-6677889".
Definition year : string := "2024".
End DIV.

Definition draw_1099div (c : Canvas) (payer_name : string) (dividends : float)
    (recipient_name recipient_tin payer_tin year : string) : Canvas :=
  let '(width, height) := letter in
  (* Title *)
  let c := setFont c "Helvetica-Bold" 16 in
  let c := drawString c (1*inch) (height - 0.75*inch)
             ("Form 1099-DIV Dividends and Distributions " +:+ year) in
  (* Form border *)
  let c := setStrokeColor c black in
  let c := setLineWidth c 2 in
  let c := rect c (0.5*inch) (2*inch) (width - 1*inch) (height - 2.5*inch) in
  (* Payer info *)
  let c := setLineWidth c 1 in
  let c := rect c (0.6*inch) (height - 3*inch) (3.5*inch) (2*inch) in
  let c := setFont c "Helvetica" 8 in
  let c := drawString c (0.7*inch) (height - 1.2*inch)
             "PAYER'S name, street address, city, state, ZIP code" in
  let c := setFont c "Helvetica-Bold" 11 in
  let c := drawString c (0.7*inch) (height - 1.6*inch) payer_name in
  let c := setFont c "Helvetica" 10 in
  let c := drawString c (0.7*inch) (height - 1.85*inch) "500 Investment Plaza" in
  let c := drawString c (0.7*inch) (height - 2.05*inch) "Wall Street, NY 10001" in
  let c := setFont c "Helvetica" 8 in
  let c := drawString c (0.7*inch) (height - 2.5*inch) "PAYER'S TIN" in
  let c := setFont c "Helvetica-Bold" 11 in
  let c := drawString c (0.7*inch) (height - 2.8*inch) payer_tin in
  (* Recipient *)
  let c := setFont c "Helvetica" 8 in
  let c := drawString c (0.6*inch) (height - 3.5*inch) "RECIPIENT'S TIN" in
  let c := setFont c "Helvetica-Bold" 11 in
  let c := drawString c (0.6*inch) (height - 3.8*inch) recipient_tin in
  let c := setFont c "Helvetica" 8 in
  let c := drawString c (0.6*inch) (height - 4.2*inch) "RECIPIENT'S name" in
  let c := setFont c "Helvetica-Bold" 11 in
  let c := drawString c (0.6*inch) (height - 4.5*inch) recipient_name in
  (* Box 1a - Total ordinary dividends *)
  let c := setLineWidth c 1 in
  let c := rect c (width/2 + 0.5*inch) (height - 2.5*inch) (2.5*inch) (1.2*inch) in
  let c := setFont c "Helvetica" 8 in
  let c := drawString c (width/2 + 0.6*inch) (height - 1.5*inch)
             "1a Total ordinary dividends" in
  let c := setFont c "Helvetica-Bold" 14 in
  let c := drawString c (width/2 + 0.6*inch) (height - 2*inch)
             (format_money dividends) in
  (* Box 1b - Qualified dividends *)
  let c := rect c (width/2 + 0.5*inch) (height - 4*inch) (2.5*inch) (1.2*inch) in
  let c := setFont c "Helvetica" 8 in
  let c := drawString c (width/2 + 0.6*inch) (height - 3*inch)
             "1b Qualified dividends" in
  let c := setFont c "Helvetica-Bold" 12 in
  let qualified := dividends * 0.8 in
  let c := drawString c (width/2 + 0.6*inch) (height - 3.5*inch)
             (format_money qualified) in
  (* Footer *)
  let c := setFont c "Helvetica" 8 in
  let c := drawString c (0.6*inch) (1.6*inch) ("Form 1099-DIV (" +:+ year +:+ ")") in
  drawString c (0.6*inch) (1.4*inch)
    "Department of the Treasury - Internal Revenue Service".

(** Default values of the keyword parameters of [draw_1098]. *)
Module F1098.
Definition borrower_name : string := "John Q. Taxpayer".
Definition borrower_tin : string := "XXX-XX-1234".
Definition lender_tin : string := "77-8899001".
Definition year : string := "2024".
End F1098.

Definition draw_1098 (c : Canvas) (lender_name : string) (interest : float)
    (borrower_name borrower_tin lender_tin year : string) : Canvas :=
  let '(width, height) := letter in
  (* Title *)
  let c := setFont c "Helvetica-Bold" 16 in
  let c := drawString c (1*inch) (height - 0.75*inch)
             ("Form 1098 Mortgage Interest Statement " +:+ year) in
  (* Form border *)
  let c := setStrokeColor c black in
  let c := setLineWidth c 2 in
  let c := rect c (0.5*inch) (2*inch) (width - 1*inch) (height - 2.5*inch) in
  (* Lender info *)
  let c := setLineWidth c 1 in
  let c := rect c (0.6*inch) (height - 3*inch) (3.5*inch) (2*inch) in
  let c := setFont c "Helvetica" 8 in
  let c := drawString c (0.7*inch) (height - 1.2*inch)
             "RECIPIENT'S/LENDER'S name, address, and telephone number" in
  let c := setFont c "Helvetica-Bold" 11 in
  let c := drawString c (0.7*inch) (height - 1.6*inch) lender_name in
  let c := setFont c "Helvetica" 10 in
  let c := drawString c (0.7*inch) (height - 1.85*inch) "200 Mortgage Way" in
  let c := drawString c (0.7*inch) (height - 2.05*inch) "Lending City, ST 44444" in
  let c := setFont c "Helvetica" 8 in
  let c := drawString c (0.7*inch) (height - 2.5*inch) "RECIPIENT'S TIN" in
  let c := setFont c "Helvetica-Bold" 11 in
  let c := drawString c (0.7*inch) (height - 2.8*inch) lender_tin in
  (* Borrower (Payer) *)
  let c := setFont c "Helvetica" 8 in
  let c := drawString c (0.6*inch) (height - 3.5*inch) "PAYER'S/BORROWER'S TIN" in
  let c := setFont c "Helvetica-Bold" 11 in
  let c := drawString c (0.6*inch) (height - 3.8*inch) borrower_tin in
  let c := setFont c "Helvetica" 8 in
  let c := drawString c (0.6*inch) (height - 4.2*inch) "PAYER'S/BORROWER'S name" in
  let c := setFont c "Helvetica-Bold" 11 in
  let c := drawString c (0.6*inch) (height - 4.5*inch) borrower_name in
  let c := setFont c "Helvetica" 10 in
  let c := drawString c (0.6*inch) (height - 4.9*inch) "456 Home Street" in
  let c := drawString c (0.6*inch) (height - 5.1*inch) "Hometown, ST 67890" in
  (* Box 1 - Mortgage interest received *)
  let c := setLineWidth c 1 in
  let c := rect c (width/2 + 0.5*inch) (height - 2.5*inch) (2.5*inch) (1.2*inch) in
  let c := setFont c "Helvetica" 8 in
  let c := drawString c (width/2 + 0.6*inch) (height - 1.5*inch)
             "1 Mortgage interest received from payer(s)/borrower(s)" in
  let c := setFont c "Helvetica-Bold" 14 in
  let c := drawString c (width/2 + 0.6*inch) (height - 2*inch)
             (format_money interest) in
  (* Box 2 - Outstanding mortgage principal *)
  let c := rect c (width/2 + 0.5*inch) (height - 4*inch) (2.5*inch) (1.2*inch) in
  let c := setFont c "Helvetica" 8 in
  let c := drawString c (width/2 + 0.6*inch) (height - 3*inch)
             "2 Outstanding mortgage principal" in
  let c := setFont c "Helvetica-Bold" 12 in
  let principal := interest * 25 in
  let c := drawString c (width/2 + 0.6*inch) (height - 3.5*inch)
             (format_money principal) in
  (* Footer *)
  let c := setFont c "Helvetica" 8 in
  let c := drawString c (0.6*inch) (1.6*inch) ("Form 1098 (" +:+ year +:+ ")") in
  drawString c (0.6*inch) (1.4*inch)
    "Department of the Treasury - Internal Revenue Service".

Local Close Scope py_scope.

(** ** The world outside: directories, files, console *)

(** A saved file holds the marks of its single page.  Input and output
    are taken to succeed: the script handles no failure of its own. *)
Record World := mkWorld {
  dirs : gset string;
  files : gmap string (list Mark);
  stdout : list string
}.

(** [os.makedirs(path, exist_ok=True)]. *)
Definition makedirs (path : string) (w : World) : World :=
  mkWorld ({[path]} ∪ dirs w) (files w) (stdout w).

(** [c.save()]: the page is written under the name the canvas was made
    with, replacing any file of that name. *)
Definition save (c : Canvas) (w : World) : World :=
  mkWorld (dirs w) (<[filename c := page c]> (files w)) (stdout w).

Definition print (s : string) (w : World) : World :=
  mkWorld (dirs w) (files w) (stdout w ++ [s]).

(** The values a manifest dictionary holds. *)
Inductive PyVal :=
| VStr (s : string)
| VFloat (x : float)
| VBool (b : bool).

(** [l.append(x)]. *)
Definition append {A : Type} (l : list A) (x : A) : list A := (l ++ [x])%list.

#[global] Instance float_eq_dec : EqDecision float.
Proof. solve_decision. Defined.

#[global] Instance PyVal_eq_dec : EqDecision PyVal.
Proof. solve_decision. Defined.

Definition newline : string := String (ascii_of_nat 10) "".

(** ** The driver *)

Definition main (w : World) : World * list (gmap string PyVal) :=
  let w := makedirs OUTPUT_DIR w in
  let documents : list (gmap string PyVal) := [] in
  (* 1. W-2 Acme Corp *)
  let filename := "w2-acme-2024.pdf" in
  let c := Canvas_new (OUTPUT_DIR +:+ "/" +:+ filename) letter in
  let c := draw_w2 c "Acme Corp" (75432.00)%py
             W2.employee_name W2.employee_ssn W2.ein W2.year
             W2.is_blank W2.low_quality in
  let w := save c w in
  let w := print ("✓ Created " +:+ filename) w in
  let documents := append documents (
    {[ "filename" := VStr filename;
       "type" := VStr "W-2";
       "employer" := VStr "Acme Corp";
       "wages" := VFloat (75432.00)%py ]}) in
  (* 2. W-2 TechStart Inc *)
  let filename := "w2-techstart-2024.pdf" in
  let c := Canvas_new (OUTPUT_DIR +:+ "/" +:+ filename) letter in
  let c := draw_w2 c "TechStart Inc" (92150.00)%py
             W2.employee_name W2.employee_ssn W2.ein W2.year
             W2.is_blank W2.low_quality in
  let w := save c w in
  let w := print ("✓ Created " +:+ filename) w in
  let documents := append documents (
    {[ "filename" := VStr filename;
       "type" := VStr "W-2";
       "employer" := VStr "TechStart Inc";
       "wages" := VFloat (92150.00)%py ]}) in
  (* 3. W-2 GlobalCo LLC *)
  let filename := "w2-globalco-2024.pdf" in
  let c := Canvas_new (OUTPUT_DIR +:+ "/" +:+ filename) letter in
  let c := draw_w2 c "GlobalCo LLC" (55000.00)%py
             W2.employee_name W2.employee_ssn W2.ein W2.year
             W2.is_blank W2.low_quality in
  let w := save c w in
  let w := print ("✓ Created " +:+ filename) w in
  let documents := append documents (
    {[ "filename" := VStr filename;
       "type" := VStr "W-2";
       "employer" := VStr "GlobalCo LLC";
       "wages" := VFloat (55000.00)%py ]}) in
  (* 4. 1099-NEC Consulting Partners *)
  let filename := "1099nec-consult-2024.pdf" in
  let c := Canvas_new (OUTPUT_DIR +:+ "/" +:+ filename) letter in
  let c := draw_1099nec c "Consulting Partners" (45000.00)%py
             NEC.recipient_name NEC.recipient_tin NEC.payer_tin NEC.year in
  let w := save c w in
  let w := print ("✓ Created " +:+ filename) w in
  let documents := append documents (
    {[ "filename" := VStr filename;
       "type" := VStr "1099-NEC";
       "payer" := VStr "Consulting Partners";
       "compensation" := VFloat (45000.00)%py ]}) in
  (* 5. 1099-NEC Freelance Hub *)
  let filename := "1099nec-freelance-2024.pdf" in
  let c := Canvas_new (OUTPUT_DIR +:+ "/" +:+ filename) letter in
  let c := draw_1099nec c "Freelance Hub" (28500.00)%py
             NEC.recipient_name NEC.recipient_tin NEC.payer_tin NEC.year in
  let w := save c w in
  let w := print ("✓ Created " +:+ filename) w in
  let documents := append documents (
    {[ "filename" := VStr filename;
       "type" := VStr "1099-NEC";
       "payer" := VStr "Freelance Hub";
       "compensation" := VFloat (28500.00)%py ]}) in
  (* 6. 1099-INT Big Bank *)
  let filename := "1099int-bigbank-2024.pdf" in
  let c := Canvas_new (OUTPUT_DIR +:+ "/" +:+ filename) letter in
  let c := draw_1099int c "Big Bank" (1234.00)%py
             INT.recipient_name INT.recipient_tin INT.payer_tin INT.year in
  let w := save c w in
  let w := print ("✓ Created " +:+ filename) w in
  let documents := append documents (
    {[ "filename" := VStr filename;
       "type" := VStr "1099-INT";
       "payer" := VStr "Big Bank";
       "interest" := VFloat (1234.00)%py ]}) in
  (* 7. 1099-DIV Investment Corp *)
  let filename := "1099div-invest-2024.pdf" in
  let c := Canvas_new (OUTPUT_DIR +:+ "/" +:+ filename) letter in
  let c := draw_1099div c "Investment Corp" (5678.00)%py
             DIV.recipient_name DIV.recipient_tin DIV.payer_tin DIV.year in
  let w := save c w in
  let w := print ("✓ Created " +:+ filename) w in
  let documents := append documents (
    {[ "filename" := VStr filename;
       "type" := VStr "1099-DIV";
       "payer" := VStr "Investment Corp";
       "dividends" := VFloat (5678.00)%py ]}) in
  (* 8. 1098 Home Loans Inc *)
  let filename := "1098-mortgage-2024.pdf" in
  let c := Canvas_new (OUTPUT_DIR +:+ "/" +:+ filename) letter in
  let c := draw_1098 c "Home Loans Inc" (12345.00)%py
             F1098.borrower_name F1098.borrower_tin F1098.lender_tin F1098.year in
  let w := save c w in
  let w := print ("✓ Created " +:+ filename) w in
  let documents := append documents (
    {[ "filename" := VStr filename;
       "type" := VStr "1098";
       "lender" := VStr "Home Loans Inc";
       "interest" := VFloat (12345.00)%py ]}) in
  (* 9. Blank W-2 template (edge case); the source passes the integer 0
     as wages, which a blank form never reads *)
  let filename := "w2-blank-template.pdf" in
  let c := Canvas_new (OUTPUT_DIR +:+ "/" +:+ filename) letter in
  let c := draw_w2 c "" (0)%py
             W2.employee_name W2.employee_ssn W2.ein W2.year
             true W2.low_quality in
  let w := save c w in
  let w := print ("✓ Created " +:+ filename) w in
  let documents := append documents (
    {[ "filename" := VStr filename;
       "type" := VStr "W-2";
       "isBlank" := VBool true ]}) in
  (* 10. Low quality W-2 (edge case) *)
  let filename := "w2-lowquality-2024.pdf" in
  let c := Canvas_new (OUTPUT_DIR +:+ "/" +:+ filename) letter in
  let c := draw_w2 c "Faded Corp" (48750.00)%py
             W2.employee_name W2.employee_ssn W2.ein W2.year
             W2.is_blank true in
  let w := save c w in
  let w := print ("✓ Created " +:+ filename) w in
  let documents := append documents (
    {[ "filename" := VStr filename;
       "type" := VStr "W-2";
       "employer" := VStr "Faded Corp";
       "wages" := VFloat (48750.00)%py;
       "isLowQuality" := VBool true ]}) in
  let w := print (newline +:+ "✅ Generated "
                    +:+ digits (Z.of_nat (length documents))
                    +:+ " tax documents in " +:+ OUTPUT_DIR +:+ "/") w in
  (w, documents).

(** ** The requests of the driver, as data *)

(** One call of a layout routine with all its arguments: the five
    routines as the cases of one type. *)
Inductive LayoutCall :=
| call_w2 (employer_name : string) (wages : float)
    (employee_name employee_ssn ein year : string) (is_blank low_quality : bool)
| call_1099nec (payer_name : string) (compensation : float)
    (recipient_name recipient_tin payer_tin year : string)
| call_1099int (payer_name : string) (interest : float)
    (recipient_name recipient_tin payer_tin year : string)
| call_1099div (payer_name : string) (dividends : float)
    (recipient_name recipient_tin payer_tin year : string)
| call_1098 (lender_name : string) (interest : float)
    (borrower_name borrower_tin lender_tin year : string).

Definition render (k : LayoutCall) (c : Canvas) : Canvas :=
  match k with
  | call_w2 e w n s i y b q => draw_w2 c e w n s i y b q
  | call_1099nec p a n t pt y => draw_1099nec c p a n t pt y
  | call_1099int p a n t pt y => draw_1099int c p a n t pt y
  | call_1099div p a n t pt y => draw_1099div c p a n t pt y
  | call_1098 l a n t lt y => draw_1098 c l a n t lt y
  end.

(** The value of the ["type"] field of the manifest. *)
Definition form_type (k : LayoutCall) : string :=
  match k with
  | call_w2 _ _ _ _ _ _ _ _ => "W-2"
  | call_1099nec _ _ _ _ _ _ => "1099-NEC"
  | call_1099int _ _ _ _ _ _ => "1099-INT"
  | call_1099div _ _ _ _ _ _ => "1099-DIV"
  | call_1098 _ _ _ _ _ _ => "1098"
  end.

Definition primary_amount (k : LayoutCall) : float :=
  match k with
  | call_w2 _ a _ _ _ _ _ _ | call_1099nec _ a _ _ _ _ | call_1099int _ a _ _ _ _
  | call_1099div _ a _ _ _ _ | call_1098 _ a _ _ _ _ => a
  end.

Definition counterparty (k : LayoutCall) : string :=
  match k with
  | call_w2 n _ _ _ _ _ _ _ | call_1099nec n _ _ _ _ _ | call_1099int n _ _ _ _ _
  | call_1099div n _ _ _ _ _ | call_1098 n _ _ _ _ _ => n
  end.

Definition year_of (k : LayoutCall) : string :=
  match k with
  | call_w2 _ _ _ _ _ y _ _ | call_1099nec _ _ _ _ _ y | call_1099int _ _ _ _ _ y
  | call_1099div _ _ _ _ _ y | call_1098 _ _ _ _ _ y => y
  end.

Definition blank_of (k : LayoutCall) : bool :=
  match k with
  | call_w2 _ _ _ _ _ _ b _ => b
  | _ => false
  end.

Definition low_quality_of (k : LayoutCall) : bool :=
  match k with
  | call_w2 _ _ _ _ _ _ _ q => q
  | _ => false
  end.

(** The name of the manifest field that holds the primary amount. *)
Definition amount_key (k : LayoutCall) : string :=
  match k with
  | call_w2 _ _ _ _ _ _ _ _ => "wages"
  | call_1099nec _ _ _ _ _ _ => "compensation"
  | call_1099int _ _ _ _ _ _ => "interest"
  | call_1099div _ _ _ _ _ _ => "dividends"
  | call_1098 _ _ _ _ _ _ => "interest"
  end.

(** The ten blocks of [main], in order: the file name each one assigns and
    the layout call it makes, omitted keyword arguments at their
    defaults. *)
Definition requests : list (string * LayoutCall) :=
  [ ("w2-acme-2024.pdf",
      call_w2 "Acme Corp" (75432.00)%py
        W2.employee_name W2.employee_ssn W2.ein W2.year false false);
    ("w2-techstart-2024.pdf",
      call_w2 "TechStart Inc" (92150.00)%py
        W2.employee_name W2.employee_ssn W2.ein W2.year false false);
    ("w2-globalco-2024.pdf",
      call_w2 "GlobalCo LLC" (55000.00)%py
        W2.employee_name W2.employee_ssn W2.ein W2.year false false);
    ("1099nec-consult-2024.pdf",
      call_1099nec "Consulting Partners" (45000.00)%py
        NEC.recipient_name NEC.recipient_tin NEC.payer_tin NEC.year);
    ("1099nec-freelance-2024.pdf",
      call_1099nec "Freelance Hub" (28500.00)%py
        NEC.recipient_name NEC.recipient_tin NEC.payer_tin NEC.year);
    ("1099int-bigbank-2024.pdf",
      call_1099int "Big Bank" (1234.00)%py
        INT.recipient_name INT.recipient_tin INT.payer_tin INT.year);
    ("1099div-invest-2024.pdf",
      call_1099div "Investment Corp" (5678.00)%py
        DIV.recipient_name DIV.recipient_tin DIV.payer_tin DIV.year);
    ("1098-mortgage-2024.pdf",
      call_1098 "Home Loans Inc" (12345.00)%py
        F1098.borrower_name F1098.borrower_tin F1098.lender_tin F1098.year);
    ("w2-blank-template.pdf",
      call_w2 "" (0)%py
        W2.employee_name W2.employee_ssn W2.ein W2.year true false);
    ("w2-lowquality-2024.pdf",
      call_w2 "Faded Corp" (48750.00)%py
        W2.employee_name W2.employee_ssn W2.ein W2.year false true) ].

(** The path a request is saved under, and what one request does to the
    world: a fresh canvas, the layout call, [save], one progress line. *)
Definition out_path (name : string) : string := OUTPUT_DIR +:+ "/" +:+ name.

Definition rendered (r : string * LayoutCall) : list Mark :=
  page (render r.2 (Canvas_new (out_path r.1) letter)).

Definition produce (w : World) (r : string * LayoutCall) : World :=
  let c := Canvas_new (out_path r.1) letter in
  let c := render r.2 c in
  let w := save c w in
  print ("✓ Created " +:+ r.1) w.

Definition summary_line (n : nat) : string :=
  newline +:+ "✅ Generated " +:+ digits (Z.of_nat n)
    +:+ " tax documents in " +:+ OUTPUT_DIR +:+ "/".

(** The files a run writes: path and page, in request order. *)
Definition outputs : list (string * list Mark) :=
  map (fun r => (out_path r.1, rendered r)) requests.

Definition write_all (fs : gmap string (list Mark))
    (os : list (string * list Mark)) : gmap string (list Mark) :=
  foldl (fun fs o => <[o.1 := o.2]> fs) fs os.

(** The manifest a run returns (it does not depend on the world, see
    [main_manifest]). *)
Definition manifest : list (gmap string PyVal) :=
  Eval cbv beta iota zeta delta [main snd append app] in
  (main (mkWorld ∅ ∅ [])).2.

(** ** Observations on a page *)

(** Replaying a list of calls on a canvas. *)
Definition apply_call (c : Canvas) (k : Call) : Canvas :=
  match k with
  | CsetFont name size => setFont c name size
  | CsetFillColor k => setFillColor c k
  | CsetStrokeColor k => setStrokeColor c k
  | CsetLineWidth w => setLineWidth c w
  | CdrawString x y text => drawString c x y text
  | Crect x y width height => rect c x y width height
  | Cline x1 y1 x2 y2 => line c x1 y1 x2 y2
  end.

Definition replay (ks : list Call) (c : Canvas) : Canvas :=
  fold_left apply_call ks c.

(** The same graphics state on an empty page, and a canvas put after the
    page and calls of another. *)
Definition clean (c : Canvas) : Canvas :=
  mkCanvas (filename c) (pagesize c) (fontName c) (fontSize c) (fillColor c)
    (strokeColor c) (lineWidth c) [] [].

Definition graft (c d : Canvas) : Canvas :=
  mkCanvas (filename d) (pagesize d) (fontName d) (fontSize d) (fillColor d)
    (strokeColor d) (lineWidth d) (page c ++ page d) (calls c ++ calls d).

(** What a routine added to a canvas [c], given the canvas [c'] it
    returned. *)
Definition added_marks (c c' : Canvas) : list Mark :=
  drop (length (page c)) (page c').

Definition added_calls (c c' : Canvas) : list Call :=
  drop (length (calls c)) (calls c').

(** Identity of two floats as data (not [==]: it tells [0.0] from [-0.0]). *)
Definition float_same (a b : float) : bool :=
  match a, b with
  | S754_zero s, S754_zero s' => Bool.eqb s s'
  | S754_infinity s, S754_infinity s' => Bool.eqb s s'
  | S754_nan, S754_nan => true
  | S754_finite s m e, S754_finite s' m' e' =>
      Bool.eqb s s' && Pos.eqb m m' && Z.eqb e e'
  | _, _ => false
  end.

(** The strings drawn at a position, and the fill colours used there. *)
Definition drawn_at (p : float * float) (ms : list Mark) : list (string * Color) :=
  flat_map (fun m =>
    match m with
    | Text x y s _ _ k =>
        if float_same p.1 x && float_same p.2 y then [(s, k)] else []
    | _ => []
    end) ms.

Definition texts_at (p : float * float) (ms : list Mark) : list string :=
  map fst (drawn_at p ms).

(** All the strings of a page, in drawing order. *)
Definition texts (ms : list Mark) : list string :=
  flat_map (fun m => match m with Text _ _ s _ _ _ => [s] | _ => [] end) ms.

(** The marks drawn in a fill other than black. *)
Definition lightened (ms : list Mark) : list Mark :=
  List.filter (fun m =>
    match m with
    | Text _ _ _ _ _ k => negb (bool_decide (k = black))
    | _ => false
    end) ms.

(** Positions the routines draw at, as the source computes them. *)
Definition width : float := letter.1.
Definition height : float := letter.2.

Module At.
Local Open Scope py_scope.
Definition w2_ssn : float * float := (0.6*inch, height - 1.7*inch).
Definition w2_employer : float * float := (0.6*inch, height - 3.7*inch).
Definition w2_box1 : float * float := (width/2 + 0.1*inch, height - 1.7*inch).
Definition w2_box2 : float * float := (width/2 + 0.1*inch, height - 2.7*inch).
Definition w2_box4 : float * float := (width/2 + 0.1*inch, height - 4.7*inch).
Definition w2_box6 : float * float := (width/2 + 0.1*inch, height - 6.7*inch).
Definition w2_box2_caption : float * float :=
  (width/2 + 0.1*inch, height - 2.35*inch).
Definition w2_box4_caption : float * float :=
  (width/2 + 0.1*inch, height - 4.35*inch).
Definition w2_box6_caption : float * float :=
  (width/2 + 0.1*inch, height - 6.35*inch).
Definition nec_payer : float * float := (0.7*inch, height - 1.7*inch).
(** The two boxes on the right of the 1099 and 1098 forms: caption and
    value of the upper one, caption and value of the lower one. *)
Definition upper_caption : float * float := (width/2 + 0.6*inch, height - 1.5*inch).
Definition upper_value : float * float := (width/2 + 0.6*inch, height - 2*inch).
Definition lower_caption : float * float := (width/2 + 0.6*inch, height - 3*inch).
Definition lower_value : float * float := (width/2 + 0.6*inch, height - 3.5*inch).
End At.

(** ** The contract of a layout routine, as a check on the page *)

(** The title, the eleven captions and the two footer lines of the W-2. *)
Definition w2_captions (year : string) : list string :=
  [ "Form W-2 Wage and Tax Statement " +:+ year;
    "a Employee's social security number";
    "b Employer identification number (EIN)";
    "c Employer's name, address, and ZIP code";
    "e Employee's first name and initial    Last name";
    "f Employee's address and ZIP code";
    "1 Wages, tips, other compensation";
    "2 Federal income tax withheld";
    "3 Social security wages";
    "4 Social security tax withheld";
    "5 Medicare wages and tips";
    "6 Medicare tax withheld";
    "Department of the Treasury - Internal Revenue Service";
    "Form W-2 (" +:+ year +:+ ")" ].

(** How a string is set: the title (bold, 16 points), a caption (regular,
    8 points), a value (anything larger than a caption), or none of these. *)
Inductive Style := Title | Caption | Value | Other.

Definition style_of (font : string) (size : Z) : Style :=
  if String.eqb font "Helvetica-Bold" && (size =? 16) then Title
  else if String.eqb font "Helvetica" && (size =? 8) then Caption
  else if 8 <? size then Value
  else Other.

Definition mark_style (m : Mark) : Style :=
  match m with
  | Text _ _ _ f z _ => style_of f z
  | _ => Other
  end.

(** A point, or a shape, within the rectangle of corner [(bl, bb)] and
    size [(bw, bh)]. *)
Definition within (bl bb bw bh x y : float) : bool :=
  leb bl x && leb x (add bl bw) && leb bb y && leb y (add bb bh).

Definition shape_within (bl bb bw bh : float) (m : Mark) : bool :=
  match m with
  | Rect x y w h _ _ =>
      within bl bb bw bh x y && within bl bb bw bh (add x w) (add y h)
  | Line x1 y1 x2 y2 _ _ =>
      within bl bb bw bh x1 y1 && within bl bb bw bh x2 y2
  | Text _ _ _ _ _ _ => true
  end.

Definition is_text (m : Mark) : bool :=
  match m with
  | Text _ _ _ _ _ _ => true
  | _ => false
  end.

Definition text_within (bl bb bw bh : float) (m : Mark) : bool :=
  match m with
  | Text x y _ _ _ _ => within bl bb bw bh x y
  | _ => false
  end.

Definition text_below (bb : float) (m : Mark) : bool :=
  match m with
  | Text _ y _ _ _ _ => ltb y bb
  | _ => false
  end.

(** The longest prefix of marks satisfying [f], and the rest. *)
Fixpoint span (f : Mark -> bool) (ms : list Mark) : list Mark * list Mark :=
  match ms with
  | m :: ms' =>
      if f m then let '(a, b) := span f ms' in (m :: a, b) else ([], ms)
  | [] => ([], [])
  end.

Definition same_style (a b : Style) : bool :=
  match a, b with
  | Title, Title | Caption, Caption | Value, Value | Other, Other => true
  | _, _ => false
  end.

Definition styled (s : Style) (m : Mark) : bool := same_style s (mark_style m).

(** The string [m] is set under the string [p]: at the same x, lower on
    the page, and no more than [gap] lower. *)
Definition set_under (gap : float) (p m : Mark) : bool :=
  match p, m with
  | Text x y _ _ _ _, Text x' y' _ _ _ _ =>
      float_same x x' && ltb y' y && leb (y - y')%py gap
  | _, _ => false
  end.

(** Reading the field boxes off the strings within the border, in the
    order they were drawn. A caption opens a box; only a caption line set
    right under the caption line before it (within a quarter of an inch)
    continues the caption; a value belongs to the box that is open, and
    none may come before the first caption. [cur] holds the lines of the
    open box, the last one first. *)
Fixpoint boxes_from (cur : list Mark) (ms : list Mark)
  : option (list (list Mark)) :=
  match ms with
  | [] =>
      Some (match cur with
            | [] => []
            | _ :: _ => [rev cur]
            end)
  | m :: ms' =>
      match mark_style m with
      | Caption =>
          match cur with
          | [] => boxes_from [m] ms'
          | p :: _ =>
              if styled Caption p && set_under (0.25 * inch)%py p m
              then boxes_from (m :: cur) ms'
              else option_map (cons (rev cur)) (boxes_from [m] ms')
          end
      | Value =>
          match cur with
          | [] => None
          | _ :: _ => boxes_from (m :: cur) ms'
          end
      | _ => None
      end
  end.

Fixpoint each_under (gap : float) (b : list Mark) : bool :=
  match b with
  | p :: (m :: _) as b' => set_under gap p m && each_under gap b'
  | _ => true
  end.

(** One field box: the caption comes first; every further line is set
    under the line before it, no more than half an inch lower; unless the
    form is blank the box has a value, and on a blank form it has none. *)
Definition box_ok (blank : bool) (b : list Mark) : bool :=
  match b with
  | m :: _ =>
      styled Caption m
      && each_under (0.5 * inch)%py b
      && (if blank then negb (existsb (styled Value) b)
          else existsb (styled Value) b)
  | [] => false
  end.

(** The strings read as field boxes: one box or more, each of them in
    order. *)
Definition boxes_ok (blank : bool) (body : list Mark) : bool :=
  match boxes_from [] body with
  | Some (b :: bs) => forallb (box_ok blank) (b :: bs)
  | _ => false
  end.

Definition between (a b x : float) : bool :=
  (leb a x && leb x b) || (leb b x && leb x a).

(** The caption of the box [b] sits where [f] says. *)
Definition caption_at (f : float -> float -> bool) (b : list Mark) : bool :=
  match b with
  | Text x y _ _ _ _ :: _ => f x y
  | _ => false
  end.

(** What a rule drawn inside the border is there for: a rectangle frames
    a whole box; a horizontal line runs under the caption of a box, no
    more than a quarter of an inch below it; a vertical line divides two
    columns, with the caption of a box on either side. *)
Definition rules_a_box (bs : list (list Mark)) (m : Mark) : bool :=
  match m with
  | Rect x y w h _ _ => existsb (forallb (text_within x y w h)) bs
  | Line x1 y1 x2 y2 _ _ =>
      if float_same y1 y2 then
        existsb (caption_at (fun x y =>
                   between x1 x2 x && ltb y1 y
                   && leb (y - y1)%py (0.25 * inch)%py)) bs
      else if float_same x1 x2 then
        existsb (caption_at (fun x y => ltb x x1 && between y1 y2 y)) bs
        && existsb (caption_at (fun x y => ltb x1 x && between y1 y2 y)) bs
      else false
  | Text _ _ _ _ _ _ => true
  end.

(** A rule is stroked thinner than [lw]. *)
Definition thinner (lw : float) (m : Mark) : bool :=
  match m with
  | Rect _ _ _ _ w _ | Line _ _ _ _ w _ => ltb w lw
  | Text _ _ _ _ _ _ => true
  end.

(** The parts of a page after its title and its border: the rules, the
    strings within the border, and the strings that follow them. *)
Definition inner_rules (ms : list Mark) : list Mark :=
  List.filter (fun m => negb (is_text m)) (skipn 2 ms).

Definition page_body (ms : list Mark) : list Mark :=
  match ms with
  | _ :: Rect bl bb bw bh _ _ :: rest =>
      (span (text_within bl bb bw bh) (List.filter is_text rest)).1
  | _ => []
  end.

Definition page_footer (ms : list Mark) : list Mark :=
  match ms with
  | _ :: Rect bl bb bw bh _ _ :: rest =>
      (span (text_within bl bb bw bh) (List.filter is_text rest)).2
  | _ => []
  end.

(** The page of a layout routine. First the title, then the outer border,
    a rectangle stroked 2 points wide that holds the title. Inside the
    border there are rules, all thinner than the border, each one framing,
    underlining or dividing field boxes. The strings within the border
    come first and read as field boxes, one or more. The strings that
    follow are the footer: there is one, set as captions below the
    border. *)
Definition layout_ok (blank : bool) (ms : list Mark) : bool :=
  match ms with
  | Text tx ty _ tf tz _ :: Rect bl bb bw bh lw _ :: _ =>
      let rules := inner_rules ms in
      let body := page_body ms in
      let footer := page_footer ms in
      match style_of tf tz with Title => true | _ => false end
      && within bl bb bw bh tx ty
      && float_same lw (2)%py
      && negb (bool_decide (rules = []))
      && forallb (shape_within bl bb bw bh) rules
      && forallb (thinner lw) rules
      && boxes_ok blank body
      && match boxes_from [] body with
         | Some bs => forallb (rules_a_box bs) rules
         | None => false
         end
      && negb (bool_decide (footer = []))
      && forallb (text_below bb) footer
      && forallb (styled Caption) footer
  | _ => false
  end.

(** What a page holds, by count: for each field box the number of its
    caption lines and of its value lines, and the inner rectangles and
    lines. *)
Definition box_lines (b : list Mark) : nat * nat :=
  (length (List.filter (styled Caption) b),
   length (List.filter (styled Value) b)).

Definition field_boxes (ms : list Mark) : list (nat * nat) :=
  match boxes_from [] (page_body ms) with
  | Some bs => map box_lines bs
  | None => []
  end.


Definition is_rect (m : Mark) : bool :=
  match m with
  | Rect _ _ _ _ _ _ => true
  | _ => false
  end.

Definition rule_count (ms : list Mark) : nat * nat :=
  (length (List.filter is_rect (inner_rules ms)),
   length (List.filter (fun m => negb (is_rect m)) (inner_rules ms))).

(** A page with some of its marks left out: the marks of [ms] that [f]
    keeps. *)
Definition keep (f : Mark -> bool) (ms : list Mark) : list Mark :=
  List.filter f ms.

Definition is_line (m : Mark) : bool :=
  match m with
  | Line _ _ _ _ _ _ => true
  | _ => false
  end.

Definition text_at (p : float * float) (m : Mark) : bool :=
  match m with
  | Text x y _ _ _ _ => float_same x p.1 && float_same y p.2
  | _ => false
  end.



(** ** The pattern of the file names *)

Definition type_slug (k : LayoutCall) : string :=
  match k with
  | call_w2 _ _ _ _ _ _ _ _ => "w2"
  | call_1099nec _ _ _ _ _ _ => "1099nec"
  | call_1099int _ _ _ _ _ _ => "1099int"
  | call_1099div _ _ _ _ _ _ => "1099div"
  | call_1098 _ _ _ _ _ _ => "1098"
  end.

(** A name flattened to lower-case letters and digits. *)
Definition flat_char (a : ascii) : list ascii :=
  let n := N_of_ascii a in
  if (65 <=? n)%N && (n <=? 90)%N then [ascii_of_N (n + 32)]
  else if ((97 <=? n)%N && (n <=? 122)%N) || ((48 <=? n)%N && (n <=? 57)%N)
  then [a] else [].

Definition flatten (name : string) : string :=
  string_of_list_ascii (flat_map flat_char (list_ascii_of_string name)).

(** [token] is a slug of [name]: a non-empty beginning of the flattened
    name. *)
Definition is_slug_of (token name : string) : bool :=
  negb (String.eqb token "") && String.prefix token (flatten name).

(** The characters of [t] occur in [s], in the same order. *)
Fixpoint subsequence (t s : string) : bool :=
  match s with
  | EmptyString => match t with EmptyString => true | _ => false end
  | String a s' =>
      match t with
      | EmptyString => true
      | String b t' =>
          if Ascii.eqb a b then subsequence t' s' else subsequence t s'
      end
  end.

Definition strip_prefix (p s : string) : option string :=
  if String.prefix p s
  then Some (String.substring (String.length p)
               (String.length s - String.length p) s)
  else None.

Definition strip_suffix (q s : string) : option string :=
  let n := (String.length s - String.length q)%nat in
  if (String.length q <=? String.length s)%nat
     && String.eqb (String.substring n (String.length q) s) q
  then Some (String.substring 0 n s)
  else None.

(** The part of a file name between [<type-slug>-] and [-<year>.pdf]. *)
Definition middle_token (name : string) (k : LayoutCall) : option string :=
  match strip_prefix (type_slug k +:+ "-") name with
  | Some rest => strip_suffix ("-" +:+ year_of k +:+ ".pdf") rest
  | None => None
  end.

(** The pattern as the specification words it. *)
Definition follows_pattern (name : string) (k : LayoutCall) : bool :=
  if blank_of k then String.eqb name (type_slug k +:+ "-blank-template.pdf")
  else if low_quality_of k
  then String.eqb name (type_slug k +:+ "-lowquality-" +:+ year_of k +:+ ".pdf")
  else
    match middle_token name k with
    | Some t => is_slug_of t (counterparty k)
    | None => false
    end.

(** The pattern the names of [main] do follow: the same, but the token
    of the 1098 is the word [mortgage], not a slug of the lender. *)
Definition follows_pattern_1098 (name : string) (k : LayoutCall) : bool :=
  if blank_of k then String.eqb name (type_slug k +:+ "-blank-template.pdf")
  else if low_quality_of k
  then String.eqb name (type_slug k +:+ "-lowquality-" +:+ year_of k +:+ ".pdf")
  else
    match middle_token name k with
    | Some t =>
        match k with
        | call_1098 _ _ _ _ _ _ => String.eqb t "mortgage"
        | _ => is_slug_of t (counterparty k)
        end
    | None => false
    end.

(** ** Fields of a manifest entry *)

(** The fields of an entry that hold a float: its monetary fields. *)
Definition float_fields (d : gmap string PyVal) : list (string * float) :=
  map_to_list
    (omap (fun v => match v with VFloat x => Some x | _ => None end) d).

(** ** The discipline of the fill colour *)

(** In a sequence of calls started with fill colour [fill]: every
    [drawString] made in a colour other than black is followed at once by
    [setFillColor(black)]. *)
Fixpoint reset_after_light (fill : Color) (ks : list Call) : bool :=
  match ks with
  | [] => true
  | CsetFillColor k :: ks' => reset_after_light k ks'
  | CdrawString _ _ _ :: ks' =>
      (bool_decide (fill = black)
       || match ks' with
          | CsetFillColor black :: _ => true
          | _ => false
          end)
      && reset_after_light fill ks'
  | _ :: ks' => reset_after_light fill ks'
  end.

(** ** Further observations *)

(** A string set as a value (larger than a caption, and not the title). *)
Definition is_value_mark (m : Mark) : bool :=
  match mark_style m with
  | Value => true
  | _ => false
  end.

(** A mark with its fill colour forgotten. *)
Definition unfilled (m : Mark) : Mark :=
  match m with
  | Text x y s f z _ => Text x y s f z black
  | _ => m
  end.

(** A mark that lies on the letter page: the point a string starts at,
    both corners of a rectangle, both ends of a line. *)
Definition on_page (m : Mark) : bool :=
  shape_within (0)%py (0)%py width height m
  && match m with
     | Text x y _ _ _ _ => within (0)%py (0)%py width height x y
     | _ => true
     end.

(** The points the strings of a page start at. *)
Definition anchors (ms : list Mark) : list (float * float) :=
  flat_map (fun m => match m with Text x y _ _ _ _ => [(x, y)] | _ => [] end) ms.

(** A mark drawn at one of the given points. *)
Definition drawn_at_any (ps : list (float * float)) (m : Mark) : bool :=
  match m with
  | Text x y _ _ _ _ =>
      existsb (fun p => float_same p.1 x && float_same p.2 y) ps
  | _ => false
  end.

(** A new canvas but for its fill colour. *)
Definition canvas_filled (k : Color) : Canvas :=
  setFillColor (Canvas_new "" letter) k.

(** The manifest field that names the counterparty, and the keys an entry
    of [main] has for a request. *)
Definition name_key (k : LayoutCall) : string :=
  match k with
  | call_w2 _ _ _ _ _ _ _ _ => "employer"
  | call_1098 _ _ _ _ _ _ => "lender"
  | _ => "payer"
  end.

Definition entry_keys (k : LayoutCall) : gset string :=
  {[ "filename"; "type" ]}
  ∪ (if blank_of k then {[ "isBlank" ]} else {[ name_key k; amount_key k ]})
  ∪ (if low_quality_of k then {[ "isLowQuality" ]} else ∅).

(** The same call for another year. *)
Definition with_year (y : string) (k : LayoutCall) : LayoutCall :=
  match k with
  | call_w2 e w n s i _ b q => call_w2 e w n s i y b q
  | call_1099nec p a n t pt _ => call_1099nec p a n t pt y
  | call_1099int p a n t pt _ => call_1099int p a n t pt y
  | call_1099div p a n t pt _ => call_1099div p a n t pt y
  | call_1098 l a n t lt _ => call_1098 l a n t lt y
  end.

(** Where the year is printed: in the title, and in the footer line that
    names the form. *)
Definition year_anchors (k : LayoutCall) : list (float * float) :=
  [ ((1 * inch)%py, (height - 0.75 * inch)%py);
    match k with
    | call_w2 _ _ _ _ _ _ _ _ => ((width - 2.5 * inch)%py, (0.6 * inch)%py)
    | _ => ((0.6 * inch)%py, (1.6 * inch)%py)
    end ].

(** Where the primary amount of a call is printed as it is. *)
Definition amount_anchors (k : LayoutCall) : list (float * float) :=
  match k with
  | call_w2 _ _ _ _ _ _ _ _ =>
      [ At.w2_box1;
        ((width / 2 + 0.1 * inch)%py, (height - 3.7 * inch)%py);
        ((width / 2 + 0.1 * inch)%py, (height - 5.7 * inch)%py) ]
  | _ => [ At.upper_value ]
  end.

(** ** Amounts in cents *)

(** An amount of [t] cents as the money format prints it. *)
Definition money_of_cents (t : Z) : string :=
  "$" +:+ thousands (digits (t / 100)) +:+ "." +:+ two_digits (t mod 100).

(** What [i] one-bit shifts of the mantissa [m0] leave: the shifted
    mantissa, the bit shifted out last and whether any bit shifted out
    before it was set. *)
Definition shr_inv (m0 i : Z) (x : shr_record) : Prop :=
  0 <= shr_m x
  /\ exists t,
       2 * m0 = shr_m x * 2 ^ (i + 1) + (if shr_r x then 2 ^ i else 0) + t
       /\ 0 <= t < 2 ^ i
       /\ (shr_s x = false <-> t = 0).

(** * Properties *)

(** ** The float literals and the money format *)

(** The rates of the script as binary64 numbers [m * 2^e]: each is within
    half a unit in the last place of the decimal written in the source. *)
Example rate_literals :
  (0.22)%py = S754_finite false 7926335344172073 (-55)
  /\ 2 * Z.abs (100 * 7926335344172073 - 22 * 2 ^ 55) <= 100
  /\ (0.062)%py = S754_finite false 8935141660703064 (-57)
  /\ 2 * Z.abs (1000 * 8935141660703064 - 62 * 2 ^ 57) <= 1000
  /\ (0.0145)%py = S754_finite false 8358680908399641 (-59)
  /\ 2 * Z.abs (10000 * 8358680908399641 - 145 * 2 ^ 59) <= 10000
  /\ (0.8)%py = S754_finite false 7205759403792794 (-53)
  /\ 2 * Z.abs (10 * 7205759403792794 - 8 * 2 ^ 53) <= 10
  /\ (25)%py = S754_finite false 7036874417766400 (-48)
  /\ 7036874417766400 = 25 * 2 ^ 48.
Proof. vm_compute. split_and!; congruence. Qed.

(** [format(x, ",.2f")] on a few floats: grouping, ties to even on the
    binary value, signs, the special values. *)
Example format_2f_examples :
  map format_2f
    [ (75432.00)%py; (0.125)%py; (0.375)%py; (999.995)%py; (0.005)%py;
      (1234567.891)%py; (0)%py; SFopp (0.001)%py; S754_nan;
      S754_infinity true ]
  = [ "75,432.00"; "0.12"; "0.38"; "1,000.00"; "0.01";
      "1,234,567.89"; "0.00"; "-0.00"; "nan"; "-inf" ].
Proof. vm_compute. reflexivity. Qed.

(** ** A routine only adds to the canvas it is given *)

Lemma graft_clean (c : Canvas) : graft c (clean c) = c.
Proof.
  destruct c; unfold graft, clean; cbn.
  by rewrite !app_nil_r.
Qed.

Lemma apply_call_graft (c d : Canvas) (k : Call) :
  apply_call (graft c d) k = graft c (apply_call d k).
Proof.
  destruct c, d, k;
    cbv [apply_call graft setFont setFillColor setStrokeColor setLineWidth
         drawString rect line page calls fontName fontSize fillColor
         strokeColor lineWidth filename pagesize];
    by rewrite ?app_assoc.
Qed.

Lemma replay_graft (ks : list Call) :
  forall c d, replay ks (graft c d) = graft c (replay ks d).
Proof.
  induction ks as [|k ks IH]; intros c d; [reflexivity|].
  cbn [replay fold_left]. rewrite apply_call_graft. apply IH.
Qed.

(** Each routine does what replaying its own calls does. *)
Ltac run_canvas :=
  cbv [render draw_w2 draw_1099nec draw_1099int draw_1099div draw_1098 letter
       setFont drawString setFillColor setStrokeColor setLineWidth rect line
       fold_left negb clean graft replay apply_call app
       page calls fontName fontSize fillColor strokeColor lineWidth
       filename pagesize].

Lemma draw_w2_replay (e : string) (w : float) (n s i y : string)
    (b q : bool) (c : Canvas) :
  draw_w2 c e w n s i y b q
  = replay (calls (draw_w2 (clean c) e w n s i y b q)) c.
Proof. destruct c, b, q; run_canvas; reflexivity. Qed.

Lemma draw_1099nec_replay (p : string) (a : float) (n t pt y : string)
    (c : Canvas) :
  draw_1099nec c p a n t pt y
  = replay (calls (draw_1099nec (clean c) p a n t pt y)) c.
Proof. destruct c; run_canvas; reflexivity. Qed.

Lemma draw_1099int_replay (p : string) (a : float) (n t pt y : string)
    (c : Canvas) :
  draw_1099int c p a n t pt y
  = replay (calls (draw_1099int (clean c) p a n t pt y)) c.
Proof. destruct c; run_canvas; reflexivity. Qed.

Lemma draw_1099div_replay (p : string) (a : float) (n t pt y : string)
    (c : Canvas) :
  draw_1099div c p a n t pt y
  = replay (calls (draw_1099div (clean c) p a n t pt y)) c.
Proof. destruct c; run_canvas; reflexivity. Qed.

Lemma draw_1098_replay (l : string) (a : float) (n t lt y : string)
    (c : Canvas) :
  draw_1098 c l a n t lt y
  = replay (calls (draw_1098 (clean c) l a n t lt y)) c.
Proof. destruct c; run_canvas; reflexivity. Qed.

Lemma render_replay (k : LayoutCall) (c : Canvas) :
  render k c = replay (calls (render k (clean c))) c.
Proof.
  destruct k; cbn [render].
  - apply draw_w2_replay.
  - apply draw_1099nec_replay.
  - apply draw_1099int_replay.
  - apply draw_1099div_replay.
  - apply draw_1098_replay.
Qed.

(** Whatever replays its own calls leaves the page and the calls it was
    given in place, and adds what it would draw on a clean canvas. *)
Section Frame.

Variable f : Canvas -> Canvas.
Hypothesis f_replay : forall c, f c = replay (calls (f (clean c))) c.

Lemma frame (c : Canvas) : f c = graft c (f (clean c)).
Proof.
  rewrite (f_replay (clean c)).
  change (clean (clean c)) with (clean c).
  rewrite <- replay_graft, graft_clean. apply f_replay.
Qed.

Lemma added_marks_frame (c : Canvas) :
  added_marks c (f c) = page (f (clean c)).
Proof.
  unfold added_marks. rewrite frame. cbn [graft page].
  apply drop_app_length.
Qed.

Lemma added_calls_frame (c : Canvas) :
  added_calls c (f c) = calls (f (clean c)).
Proof.
  unfold added_calls. rewrite frame. cbn [graft calls].
  apply drop_app_length.
Qed.

Lemma fillColor_frame (c : Canvas) :
  fillColor (f c) = fillColor (f (clean c)).
Proof. rewrite frame. reflexivity. Qed.

Lemma filename_frame (c : Canvas) : filename (f c) = filename c.
Proof.
  rewrite f_replay. generalize (calls (f (clean c))). intros ks.
  revert c. induction ks as [|k ks IH]; intros c; [reflexivity|].
  cbn [replay fold_left].
  change (filename (replay ks (apply_call c k)) = filename c).
  rewrite IH. by destruct k.
Qed.

End Frame.

Lemma added_marks_render (k : LayoutCall) (c : Canvas) :
  added_marks c (render k c) = page (render k (clean c)).
Proof. exact (added_marks_frame (render k) (render_replay k) c). Qed.

Lemma filename_render (k : LayoutCall) (c : Canvas) :
  filename (render k c) = filename c.
Proof. exact (filename_frame (render k) (render_replay k) c). Qed.

Lemma added_marks_w2 (c : Canvas) (e : string) (w : float)
    (n s i y : string) (b q : bool) :
  added_marks c (draw_w2 c e w n s i y b q)
  = page (draw_w2 (clean c) e w n s i y b q).
Proof.
  exact (added_marks_frame (fun c => draw_w2 c e w n s i y b q)
           (draw_w2_replay e w n s i y b q) c).
Qed.

Lemma added_calls_w2 (c : Canvas) (e : string) (w : float)
    (n s i y : string) (b q : bool) :
  added_calls c (draw_w2 c e w n s i y b q)
  = calls (draw_w2 (clean c) e w n s i y b q).
Proof.
  exact (added_calls_frame (fun c => draw_w2 c e w n s i y b q)
           (draw_w2_replay e w n s i y b q) c).
Qed.

Lemma fillColor_w2 (c : Canvas) (e : string) (w : float)
    (n s i y : string) (b q : bool) :
  fillColor (draw_w2 c e w n s i y b q)
  = fillColor (draw_w2 (clean c) e w n s i y b q).
Proof.
  exact (fillColor_frame (fun c => draw_w2 c e w n s i y b q)
           (draw_w2_replay e w n s i y b q) c).
Qed.

Lemma added_marks_1099nec (c : Canvas) (p : string) (a : float)
    (n t pt y : string) :
  added_marks c (draw_1099nec c p a n t pt y)
  = page (draw_1099nec (clean c) p a n t pt y).
Proof.
  exact (added_marks_frame (fun c => draw_1099nec c p a n t pt y)
           (draw_1099nec_replay p a n t pt y) c).
Qed.

Lemma added_marks_1099div (c : Canvas) (p : string) (a : float)
    (n t pt y : string) :
  added_marks c (draw_1099div c p a n t pt y)
  = page (draw_1099div (clean c) p a n t pt y).
Proof.
  exact (added_marks_frame (fun c => draw_1099div c p a n t pt y)
           (draw_1099div_replay p a n t pt y) c).
Qed.

Lemma added_marks_1098 (c : Canvas) (l : string) (a : float)
    (n t lt y : string) :
  added_marks c (draw_1098 c l a n t lt y)
  = page (draw_1098 (clean c) l a n t lt y).
Proof.
  exact (added_marks_frame (fun c => draw_1098 c l a n t lt y)
           (draw_1098_replay l a n t lt y) c).
Qed.

(** ** Writing files *)

Lemma write_all_notin (os : list (string * list Mark)) :
  forall (fs : gmap string (list Mark)) (p : string),
    p ∉ map fst os -> write_all fs os !! p = fs !! p.
Proof.
  induction os as [|o os IH]; intros fs p Hp; [reflexivity|].
  cbn [map] in Hp. apply not_elem_of_cons in Hp as [Hne Hp].
  unfold write_all in *. cbn [foldl]. rewrite IH by assumption.
  by apply lookup_insert_ne.
Qed.

Lemma write_all_in (os : list (string * list Mark)) :
  forall (fs1 fs2 : gmap string (list Mark)) (p : string),
    p ∈ map fst os -> write_all fs1 os !! p = write_all fs2 os !! p.
Proof.
  induction os as [|o os IH]; intros fs1 fs2 p Hp.
  - by apply elem_of_nil in Hp.
  - change (write_all (<[o.1:=o.2]> fs1) os !! p
            = write_all (<[o.1:=o.2]> fs2) os !! p).
    destruct (decide (p ∈ map fst os)) as [Hin|Hout]; [by apply IH|].
    cbn [map] in Hp. apply elem_of_cons in Hp as [->|Hin]; [|done].
    by rewrite !write_all_notin, !lookup_insert_eq.
Qed.

Lemma write_all_twice (os : list (string * list Mark))
    (fs : gmap string (list Mark)) :
  write_all (write_all fs os) os = write_all fs os.
Proof.
  apply map_eq; intros p.
  destruct (decide (p ∈ map fst os)) as [Hin|Hout].
  - by apply write_all_in.
  - by rewrite !write_all_notin.
Qed.

Lemma write_all_dom (os : list (string * list Mark)) :
  forall fs : gmap string (list Mark),
    dom (write_all fs os) = list_to_set (map fst os) ∪ dom fs.
Proof.
  induction os as [|o os IH]; intros fs.
  - cbn [map list_to_set write_all foldl]. by rewrite (left_id_L ∅ (∪)).
  - change (dom (write_all (<[o.1:=o.2]> fs) os)
            = list_to_set (map fst (o :: os)) ∪ dom fs).
    rewrite IH, dom_insert_L. cbn [map list_to_set].
    by rewrite (assoc_L (∪)), (comm_L (∪) (list_to_set _)).
Qed.

(** ** The driver and its table of requests *)

Lemma main_manifest (w : World) : (main w).2 = manifest.
Proof.
  cbv beta iota zeta delta [manifest main snd append app]. reflexivity.
Qed.

Lemma main_world (w : World) :
  (main w).1
  = print (summary_line 10) (foldl produce (makedirs OUTPUT_DIR w) requests).
Proof.
  cbv beta iota zeta delta
    [main fst snd foldl requests produce render out_path rendered append app
     length].
  reflexivity.
Qed.

Lemma files_produce (rs : list (string * LayoutCall)) :
  forall w,
    files (foldl produce w rs)
    = write_all (files w) (map (fun r => (out_path r.1, rendered r)) rs).
Proof.
  induction rs as [|r rs IH]; intros w; [reflexivity|].
  cbn [foldl map]. rewrite IH. unfold write_all. cbn [foldl].
  unfold produce at 1. cbn [print save files]. rewrite filename_render.
  reflexivity.
Qed.

Lemma stdout_produce (rs : list (string * LayoutCall)) :
  forall w,
    stdout (foldl produce w rs)
    = (stdout w ++ map (fun r => "✓ Created " +:+ r.1) rs)%list.
Proof.
  induction rs as [|r rs IH]; intros w.
  - cbn. by rewrite app_nil_r.
  - cbn [foldl map]. rewrite IH. cbn. by rewrite <- app_assoc.
Qed.

Lemma files_print (s : string) (w : World) : files (print s w) = files w.
Proof. reflexivity. Qed.

Lemma stdout_print (s : string) (w : World) :
  stdout (print s w) = (stdout w ++ [s])%list.
Proof. reflexivity. Qed.

Lemma main_files (w : World) : files (main w).1 = write_all (files w) outputs.
Proof. rewrite main_world, files_print, files_produce. reflexivity. Qed.

Lemma main_stdout (w : World) :
  stdout (main w).1
  = (stdout w
     ++ (map (fun r => "✓ Created " +:+ r.1) requests ++ [summary_line 10]))%list.
Proof.
  rewrite main_world, stdout_print, stdout_produce.
  by rewrite <- app_assoc.
Qed.

Ltac each_request :=
  unfold requests, manifest;
  repeat first
    [ apply List.Forall2_nil
    | apply List.Forall2_cons; [vm_compute; reflexivity|] ].

(** ** C2: ten files, ten entries *)

(** C2. A run from any world returns a manifest of ten entries and writes
    ten files under ten different paths, the pages of the ten requests in
    order and nothing else (ten files in all when the run starts from no
    file); the file names of the manifest are all different and the entry
    of each request, at the position of the request, names the file that
    request was saved as. *)
Theorem main_ten_files_ten_entries (w : World) :
  length (main w).2 = 10%nat
  /\ length outputs = 10%nat
  /\ NoDup (map fst outputs)
  /\ files (main w).1 = write_all (files w) outputs
  /\ dom (files (main w).1) = list_to_set (map fst outputs) ∪ dom (files w)
  /\ map fst outputs = map (fun r => out_path r.1) requests
  /\ NoDup (map (fun d : gmap string PyVal => d !! "filename") (main w).2)
  /\ Forall2 (fun r (d : gmap string PyVal) => d !! "filename" = Some (VStr r.1))
       requests (main w).2
  /\ stdout (main w).1
     = (stdout w
        ++ (map (fun r => "✓ Created " +:+ r.1) requests
            ++ [summary_line 10]))%list
  /\ size (files (main (mkWorld ∅ ∅ [])).1) = 10%nat.
Proof.
  rewrite main_manifest, !main_files, write_all_dom, main_stdout.
  split_and!.
  - reflexivity.
  - reflexivity.
  - apply (bool_decide_unpack _). vm_compute. exact I.
  - reflexivity.
  - reflexivity.
  - reflexivity.
  - apply (bool_decide_unpack _). vm_compute. exact I.
  - each_request.
  - reflexivity.
  - vm_compute. reflexivity.
Qed.

(** ** C1: the derived values *)

(** C1. On every canvas, for every W-2 with wages [w], every 1099-DIV with
    total dividends [d] and every 1098 with mortgage interest [i], the
    strings drawn in the boxes of the derived amounts are the products
    [w * 0.22], [w * 0.062], [w * 0.0145], [d * 0.8] and [i * 25] of
    Python floats, formatted as money; on a blank W-2 nothing is drawn
    there.  The routines take no amount but the primary one. *)
Theorem derived_values_drawn (c : Canvas) (name n s i y : string)
    (w d m : float) (b q : bool) :
  let w2 := added_marks c (draw_w2 c name w n s i y b q) in
  let div := added_marks c (draw_1099div c name d n s i y) in
  let f1098 := added_marks c (draw_1098 c name m n s i y) in
  texts_at At.w2_box2_caption w2 = ["2 Federal income tax withheld"]
  /\ texts_at At.w2_box2 w2
     = (if b then [] else [format_money (w * 0.22)%py])
  /\ texts_at At.w2_box4_caption w2 = ["4 Social security tax withheld"]
  /\ texts_at At.w2_box4 w2
     = (if b then [] else [format_money (w * 0.062)%py])
  /\ texts_at At.w2_box6_caption w2 = ["6 Medicare tax withheld"]
  /\ texts_at At.w2_box6 w2
     = (if b then [] else [format_money (w * 0.0145)%py])
  /\ texts_at At.lower_caption div = ["1b Qualified dividends"]
  /\ texts_at At.lower_value div = [format_money (d * 0.8)%py]
  /\ texts_at At.lower_caption f1098 = ["2 Outstanding mortgage principal"]
  /\ texts_at At.lower_value f1098 = [format_money (m * 25)%py].
Proof.
  cbv zeta.
  rewrite added_marks_w2, added_marks_1099div, added_marks_1098.
  destruct b, q; split_and!; reflexivity.
Qed.

(** The derived amounts of the first request, as they are printed. *)
Example acme_derived_values :
  let w2 := rendered ("w2-acme-2024.pdf",
              call_w2 "Acme Corp" (75432.00)%py W2.employee_name
                W2.employee_ssn W2.ein W2.year false false) in
  texts_at At.w2_box2 w2 = ["$16,595.04"]
  /\ texts_at At.w2_box4 w2 = ["$4,676.78"]
  /\ texts_at At.w2_box6 w2 = ["$1,093.76"].
Proof. vm_compute. done. Qed.

(** ** C7: the 1099-NEC of Consulting Partners *)

(** C7. The 1099-NEC for payer "Consulting Partners" with compensation
    45000.00 (the fourth request of [main]) has "$45,000.00" as the value
    of Box 1, and every 1099-NEC has "$0.00" as the value of Box 4,
    whatever the compensation. *)
Theorem nec_box1_and_box4 (c : Canvas) (payer n t pt y : string)
    (compensation : float) :
  let consulting :=
    added_marks c (draw_1099nec c "Consulting Partners" (45000.00)%py n t pt y) in
  let any := added_marks c (draw_1099nec c payer compensation n t pt y) in
  requests !! 3%nat
    = Some ("1099nec-consult-2024.pdf",
            call_1099nec "Consulting Partners" (45000.00)%py
              NEC.recipient_name NEC.recipient_tin NEC.payer_tin NEC.year)
  /\ texts_at At.nec_payer consulting = ["Consulting Partners"]
  /\ texts_at At.upper_caption consulting = ["1 Nonemployee compensation"]
  /\ texts_at At.upper_value consulting = ["$45,000.00"]
  /\ texts_at At.lower_caption any = ["4 Federal income tax withheld"]
  /\ texts_at At.lower_value any = ["$0.00"]
  /\ texts_at At.upper_value any = [format_money compensation].
Proof.
  cbv zeta. rewrite !added_marks_1099nec.
  split_and!; reflexivity.
Qed.

(** ** C3: the blank W-2 *)

(** C3. A W-2 drawn with [is_blank] true adds, on every canvas, the title,
    the captions and the footer and no other string, whatever the values
    passed: no string is set as a value; and in the manifest of [main] the
    entries that mark [isBlank: true] are those of the requests with
    [is_blank] true. *)
Theorem blank_w2_draws_captions_only (w : World) (c : Canvas) (e : string)
    (wg : float) (n s i y : string) (q : bool) :
  let blank := added_marks c (draw_w2 c e wg n s i y true q) in
  texts blank = w2_captions y
  /\ blank = added_marks c (draw_w2 c "" (0)%py "" "" "" y true false)
  /\ forallb (fun m => match mark_style m with Value => false | _ => true end)
       blank = true
  /\ Forall2 (fun r (d : gmap string PyVal) =>
        d !! "isBlank" = if blank_of r.2 then Some (VBool true) else None)
       requests (main w).2.
Proof.
  cbv zeta. rewrite !added_marks_w2, main_manifest.
  split_and!; [destruct q; vm_compute; reflexivity ..| each_request].
Qed.

(** ** C4: the low-quality W-2 *)

(** C4. In the manifest of [main] the entries that mark
    [isLowQuality: true] are those of the requests with [low_quality]
    true; and a W-2 drawn with [low_quality] true has the employee's
    number and the wages of Box 1 in light grey and the employer's name in
    grey, two colours lighter than black (on a blank form these values are
    not drawn at all). *)
Theorem low_quality_marked_and_lighter (w : World) (c : Canvas) (e : string)
    (wg : float) (n s i y : string) (b : bool) :
  let faded := added_marks c (draw_w2 c e wg n s i y b true) in
  Forall2 (fun r (d : gmap string PyVal) =>
      d !! "isLowQuality"
      = if low_quality_of r.2 then Some (VBool true) else None)
    requests (main w).2
  /\ drawn_at At.w2_ssn faded = (if b then [] else [(s, lightgrey)])
  /\ drawn_at At.w2_employer faded = (if b then [] else [(e, gray)])
  /\ drawn_at At.w2_box1 faded
     = (if b then [] else [(format_money wg, lightgrey)])
  /\ lighter lightgrey black = true
  /\ lighter gray black = true
  /\ lighter black black = false.
Proof.
  cbv zeta. rewrite !added_marks_w2, main_manifest.
  split_and!; [each_request | destruct b; reflexivity ..].
Qed.

(** ** C5: the contract of the five layout routines *)


(** The check does refuse pages. Of the W-2 of the first request: the
    page with the value of box b (the EIN) left out, the page with all
    values but the last left out, the page without its grid lines, and
    the page of title, border and footer alone, whether it is read as a
    blank form or not. Of the 1098: the page without its inner
    rectangles, and the page without its title. Values without captions
    are refused too. The counts tell the pages apart as well: without
    the EIN the second box has no value line, and without the divider
    there are six rules. *)
Example layout_check_refuses :
  let w2 := rendered ("", call_w2 "Acme Corp" (75432.00)%py W2.employee_name
                            W2.employee_ssn W2.ein "2024" false false) in
  let f1098 := rendered ("", call_1098 "" (0)%py "" "" "" "") in
  layout_ok false w2 = true
  /\ layout_ok false
       (keep (fun m => negb (text_at (0.6 * inch, height - 2.7 * inch)%py m))
          w2) = false
  /\ layout_ok false
       (keep (fun m =>
                negb (styled Value m)
                || text_at (width / 2 + 0.1 * inch, height - 6.7 * inch)%py m)
          w2) = false
  /\ layout_ok false (keep (fun m => negb (is_line m)) w2) = false
  /\ rule_count
       (keep (fun m => match m with
                       | Line x1 _ x2 _ _ _ => negb (float_same x1 x2)
                       | _ => true
                       end) w2) = (0, 6)%nat
  /\ field_boxes
       (keep (fun m => negb (text_at (0.6 * inch, height - 2.7 * inch)%py m))
          w2)
     = [(1, 1); (1, 0); (1, 3); (1, 1); (1, 1);
        (1, 1); (1, 1); (1, 1); (1, 1); (1, 1); (1, 1)]%nat
  /\ layout_ok false
       (keep (fun m => negb (is_text m) || styled Title m
                       || text_below (1 * inch)%py m) w2) = false
  /\ layout_ok true
       (keep (fun m => negb (is_text m) || styled Title m
                       || text_below (1 * inch)%py m) w2) = false
  /\ layout_ok false (keep (fun m => is_text m || negb (thinner (2)%py m)) f1098) = false
  /\ layout_ok false (tail f1098) = false
  /\ boxes_ok false (keep (styled Value) w2) = false.
Proof. vm_compute. done. Qed.

(** ** C6: the names of the files *)

(** C6, as the specification words it, fails on the eighth request: the
    file of the 1098 for "Home Loans Inc" is [1098-mortgage-2024.pdf], and
    [mortgage] is no slug of that name. *)
Lemma filename_pattern_fails_on_1098 :
  ~ Forall (fun r => follows_pattern r.1 r.2 = true) requests.
Proof.
  intros H.
  assert (H8 : follows_pattern "1098-mortgage-2024.pdf"
                 (call_1098 "Home Loans Inc" (12345.00)%py F1098.borrower_name
                    F1098.borrower_tin F1098.lender_tin F1098.year) = true).
  { exact (Forall_lookup_1 _ _ 7%nat _ H eq_refl). }
  vm_compute in H8. discriminate H8.
Qed.

(** No other reading of "slug" saves it: the letters of [mortgage] do not
    even occur, in this order, in the name of the lender. *)
Example mortgage_is_not_taken_from_the_lender :
  subsequence "mortgage" (flatten "Home Loans Inc") = false
  /\ subsequence "bigbank" (flatten "Big Bank") = true
  /\ flatten "Home Loans Inc" = "homeloansinc".
Proof. vm_compute. done. Qed.

(** C6. Every file name of [main] is [<type-slug>-<token>-<year>.pdf],
    with the year the form is drawn for and, as token, a slug of the
    counterparty name (for the 1098: the word [mortgage]); but the blank
    W-2 is [<type-slug>-blank-template.pdf] and the low-quality W-2 is
    [<type-slug>-lowquality-<year>.pdf]. *)
Theorem filename_pattern_of_main :
  Forall (fun r => follows_pattern_1098 r.1 r.2 = true) requests.
Proof.
  unfold requests.
  repeat first
    [ apply List.Forall_nil
    | apply List.Forall_cons; [vm_compute; reflexivity|] ].
Qed.

(** ** C8: the monetary fields of the manifest *)

(** C8. In the manifest of [main], run from any world, every entry but
    that of the blank template has one monetary field, named after the
    form and holding the primary amount passed to the layout call of its
    request; the entry of the blank template has none.  The first entry is
    the W-2 of "Acme Corp" with wages 75432.00. *)
Theorem manifest_amounts (w : World) :
  Forall2 (fun r (d : gmap string PyVal) =>
      float_fields d
      = if blank_of r.2 then []
        else [(amount_key r.2, primary_amount r.2)])
    requests (main w).2
  /\ Forall2 (fun r (d : gmap string PyVal) =>
        d !! "type" = Some (VStr (form_type r.2)))
       requests (main w).2
  /\ ((main w).2 !! 0%nat ≫= (.!! "employer")) = Some (VStr "Acme Corp")
  /\ ((main w).2 !! 0%nat ≫= (.!! "wages")) = Some (VFloat (75432.00)%py).
Proof.
  rewrite main_manifest.
  split_and!; [each_request | each_request | vm_compute; reflexivity ..].
Qed.

(** ** C9: determinism *)

(** The page of a layout call does not depend on the file the canvas is
    made for. *)
Lemma rendered_any_file (k : LayoutCall) (p1 p2 : string) :
  rendered (p1, k) = rendered (p2, k).
Proof.
  unfold rendered.
  destruct k as [? ? ? ? ? ? [] []| | | |];
    cbv [fst snd Canvas_new]; run_canvas; reflexivity.
Qed.

(** C9. Two runs of [main], from any two worlds, return the same
    manifest, write the same pages under the same ten paths and print the
    same lines; a second run after a first leaves the files as they were
    and returns the manifest again; and the page drawn for a layout call
    is a function of the call alone. *)
Theorem main_deterministic (w1 w2 : World) :
  (main w1).2 = (main w2).2
  /\ Forall (fun p => files (main w1).1 !! p = files (main w2).1 !! p)
       (map fst outputs)
  /\ drop (length (stdout w1)) (stdout (main w1).1)
     = drop (length (stdout w2)) (stdout (main w2).1)
  /\ files (main (main w1).1).1 = files (main w1).1
  /\ (main (main w1).1).2 = (main w1).2
  /\ (forall k p1 p2, rendered (p1, k) = rendered (p2, k)).
Proof.
  rewrite !main_manifest, !main_files, !main_stdout, !drop_app_length.
  split_and!; try reflexivity.
  - apply Forall_forall. intros p Hp. by apply write_all_in.
  - apply write_all_twice.
  - apply rendered_any_file.
Qed.

(** ** C10: the fill colour in [draw_w2] *)

(** C10, as worded, fails when both flags are set: under [low_quality] a
    blank W-2 draws no value, so it lightens none, not three. *)
Lemma blank_low_quality_w2_lightens_nothing :
  ~ (forall b : bool,
       let c := Canvas_new "docs/w2.pdf" letter in
       length (lightened (added_marks c
                 (draw_w2 c "Faded Corp" (48750.00)%py W2.employee_name
                    W2.employee_ssn W2.ein W2.year b true)))
       = 3%nat).
Proof.
  intros H. specialize (H true). vm_compute in H. discriminate H.
Qed.

(** C10. On a canvas whose fill colour is black, as that of every new
    canvas is, [draw_w2] draws in a lighter colour only when [low_quality]
    is set on a form that is not blank, and then exactly three strings:
    the employee's number and the wages of Box 1 in light grey, the
    employer's name in grey.  Every string drawn in a colour other than
    black is followed at once by [setFillColor(black)]; the derived tax
    amounts are drawn in black; and the fill colour is black when the
    routine returns, for every combination of the two flags. *)
Theorem w2_fill_discipline (c : Canvas) (e : string) (wg : float)
    (n s i y : string) (b q : bool) :
  fillColor c = black ->
  let c' := draw_w2 c e wg n s i y b q in
  lightened (added_marks c c')
    = (if q && negb b
       then [ Text At.w2_ssn.1 At.w2_ssn.2 s "Helvetica-Bold" 11 lightgrey;
              Text At.w2_employer.1 At.w2_employer.2 e "Helvetica-Bold" 11 gray;
              Text At.w2_box1.1 At.w2_box1.2 (format_money wg)
                "Helvetica-Bold" 12 lightgrey ]
       else [])
  /\ reset_after_light black (added_calls c c') = true
  /\ fillColor c' = black
  /\ drawn_at At.w2_box2 (added_marks c c')
     = (if b then [] else [(format_money (wg * 0.22)%py, black)])
  /\ drawn_at At.w2_box4 (added_marks c c')
     = (if b then [] else [(format_money (wg * 0.062)%py, black)])
  /\ drawn_at At.w2_box6 (added_marks c c')
     = (if b then [] else [(format_money (wg * 0.0145)%py, black)]).
Proof.
  intros Hc. cbv zeta.
  rewrite added_marks_w2, added_calls_w2, fillColor_w2.
  destruct c as [fn ps f z k st lw pg cs]. cbn in Hc. subst k.
  destruct b, q; split_and!; reflexivity.
Qed.

Lemma w2_fill_discipline_witness :
  let c := Canvas_new "docs/w2-lowquality-2024.pdf" letter in
  let c' := draw_w2 c "Faded Corp" (48750.00)%py W2.employee_name
              W2.employee_ssn W2.ein W2.year false true in
  fillColor c = black
  /\ fillColor c' = black
  /\ reset_after_light black (added_calls c c') = true.
Proof.
  cbv zeta. split; [reflexivity|].
  destruct (w2_fill_discipline
              (Canvas_new "docs/w2-lowquality-2024.pdf" letter)
              "Faded Corp" (48750.00)%py W2.employee_name W2.employee_ssn
              W2.ein W2.year false true eq_refl) as (_ & H2 & H3 & _).
  split; [exact H3 | exact H2].
Defined.

(** The condition on the canvas is needed: a blank W-2 never sets the
    fill colour, so a canvas that comes in grey goes out grey, with the
    captions drawn in grey. *)
Example blank_w2_keeps_the_fill_it_is_given :
  let c := setFillColor (Canvas_new "x.pdf" letter) gray in
  let c' := draw_w2 c "" (0)%py W2.employee_name W2.employee_ssn W2.ein
              W2.year true false in
  fillColor c' = gray
  /\ length (lightened (added_marks c c')) = 14%nat.
Proof. vm_compute. done. Qed.

(** * Further properties of the routines and of the driver *)

(** ** What a routine reads of the canvas, and the state it leaves *)

(** Of the canvas it is given, a routine reads the fill colour and nothing
    else: not the font, the stroke colour, the line width, the file name
    or the page size (it lays out for the letter page whatever the
    canvas). *)
Lemma page_render_fill (k : LayoutCall) (c : Canvas) :
  page (render k (clean c)) = page (render k (clean (canvas_filled (fillColor c)))).
Proof.
  destruct c, k as [? ? ? ? ? ? [] []| | | |];
    cbv [canvas_filled Canvas_new]; run_canvas; reflexivity.
Qed.

(** X1. Two canvases with the same fill colour get the same marks from
    the same call, whatever else differs between them. *)
Theorem render_reads_only_the_fill (k : LayoutCall) (c c' : Canvas) :
  fillColor c = fillColor c' ->
  added_marks c (render k c) = added_marks c' (render k c').
Proof.
  intros H. rewrite !added_marks_render, (page_render_fill k c),
    (page_render_fill k c'), H.
  reflexivity.
Qed.

Lemma render_reads_only_the_fill_witness :
  let k := call_1099int "Big Bank" (1234.00)%py INT.recipient_name
             INT.recipient_tin INT.payer_tin INT.year in
  let c := Canvas_new "a.pdf" letter in
  let c' := setLineWidth (setFont (Canvas_new "b.pdf" ((0)%py, (0)%py))
                            "Courier" 30) (9)%py in
  fillColor c = fillColor c'
  /\ added_marks c (render k c) = added_marks c' (render k c').
Proof.
  cbv zeta. split; [reflexivity|].
  apply (render_reads_only_the_fill
           (call_1099int "Big Bank" (1234.00)%py INT.recipient_name
              INT.recipient_tin INT.payer_tin INT.year)
           (Canvas_new "a.pdf" letter)
           (setLineWidth (setFont (Canvas_new "b.pdf" ((0)%py, (0)%py))
                            "Courier" 30) (9)%py)).
  reflexivity.
Defined.

Lemma exit_state (k : LayoutCall) (c : Canvas) :
  fontName (render k c) = "Helvetica"
  /\ fontSize (render k c) = 8
  /\ strokeColor (render k c) = black
  /\ pagesize (render k c) = pagesize c
  /\ fillColor (render k c)
     = match k with
       | call_w2 _ _ _ _ _ _ false _ => black
       | _ => fillColor c
       end.
Proof.
  destruct c, k as [? ? ? ? ? ? [] []| | | |]; split_and!; reflexivity.
Qed.

(** X2. Every routine returns the canvas set to Helvetica 8 with a black
    stroke, under the file name and page size it came with.  The fill
    colour comes back black from a W-2 that is not blank and untouched
    from a blank W-2 and from the 1099 and 1098 routines, which never set
    it. *)
Theorem state_left_by_a_routine (k : LayoutCall) (c : Canvas) :
  fontName (render k c) = "Helvetica"
  /\ fontSize (render k c) = 8
  /\ strokeColor (render k c) = black
  /\ filename (render k c) = filename c
  /\ pagesize (render k c) = pagesize c
  /\ fillColor (render k c)
     = match k with
       | call_w2 _ _ _ _ _ _ false _ => black
       | _ => fillColor c
       end
  /\ (match k with
      | call_w2 _ _ _ _ _ _ _ _ => true
      | _ => forallb (fun a => match a with CsetFillColor _ => false | _ => true end)
               (added_calls c (render k c))
      end) = true.
Proof.
  destruct (exit_state k c) as (H1 & H2 & H3 & H4 & H5).
  split_and!; try assumption.
  - apply filename_render.
  - unfold added_calls.
    rewrite (frame (render k) (render_replay k) c). cbn [graft calls].
    rewrite drop_app_length.
    destruct c, k as [? ? ? ? ? ? [] []| | | |]; reflexivity.
Qed.

(** Keeping the formatted amounts folded while the rest is computed. *)
Ltac hide_texts :=
  repeat match goal with
  | |- context [format_money ?x] => generalize (format_money x); intro
  end.

(** ** The two flags of the W-2 *)

(** X3. On a canvas that comes in black, the blank W-2 is the filled-in
    W-2 with its values taken out and nothing else changed: the same
    shapes, title, captions and footer at the same places. *)
Theorem blank_is_filled_minus_values (c : Canvas) (e e' : string)
    (wg wg' : float) (n s i n' s' i' y : string) (q q' : bool) :
  fillColor c = black ->
  List.filter (fun m => negb (is_value_mark m))
    (added_marks c (draw_w2 c e wg n s i y false q))
  = added_marks c (draw_w2 c e' wg' n' s' i' y true q').
Proof.
  intros Hc. rewrite !added_marks_w2.
  destruct c as [fn ps f z k st lw pg cs]. cbn in Hc. subst k.
  destruct q, q'; vm_compute; reflexivity.
Qed.

Lemma blank_is_filled_minus_values_witness :
  let c := Canvas_new "docs/w2-acme-2024.pdf" letter in
  fillColor c = black
  /\ List.filter (fun m => negb (is_value_mark m))
       (added_marks c
          (draw_w2 c "Acme Corp" (75432.00)%py W2.employee_name
             W2.employee_ssn W2.ein W2.year false false))
     = added_marks c
         (draw_w2 c "" (0)%py W2.employee_name W2.employee_ssn W2.ein
            W2.year true false).
Proof.
  cbv zeta. split; [reflexivity|].
  apply (blank_is_filled_minus_values
           (Canvas_new "docs/w2-acme-2024.pdf" letter)).
  reflexivity.
Defined.

(** X4. [low_quality] changes colours and nothing else: with the fill
    colours forgotten, the low-quality W-2 and the normal one are the
    same page; and the flag has no effect at all on a blank form. *)
Theorem low_quality_changes_colours_only (c : Canvas) (e : string)
    (wg : float) (n s i y : string) (b : bool) :
  map unfilled (added_marks c (draw_w2 c e wg n s i y b true))
  = map unfilled (added_marks c (draw_w2 c e wg n s i y b false))
  /\ draw_w2 c e wg n s i y true true = draw_w2 c e wg n s i y true false.
Proof.
  rewrite !added_marks_w2.
  split; destruct c; [destruct b|]; run_canvas; reflexivity.
Qed.

(** ** Where the marks are *)

(** X5. Whatever the arguments, every mark of every routine lies on the
    letter page (the start of each string, the corners of each rectangle,
    the ends of each line), and no two strings start at the same
    point. *)
Theorem marks_on_page_and_apart (k : LayoutCall) (c : Canvas) :
  forallb on_page (added_marks c (render k c)) = true
  /\ NoDup (anchors (added_marks c (render k c))).
Proof.
  rewrite added_marks_render.
  destruct k as [? ? ? ? ? ? [] []| | | |]; split;
    first [ reflexivity | apply (bool_decide_unpack _); vm_compute; exact I ].
Qed.

(** X6. The primary amount is printed as it is, through the money
    format, in Box 1 of every form, and again in Boxes 3 and 5 of the
    W-2 (nowhere on a blank form). *)
Theorem primary_amount_printed (k : LayoutCall) (c : Canvas) :
  map (fun p => texts_at p (added_marks c (render k c))) (amount_anchors k)
  = map (fun _ => if blank_of k then []
                  else [format_money (primary_amount k)])
      (amount_anchors k).
Proof.
  rewrite added_marks_render.
  destruct k as [? ? ? ? ? ? [] []| | | |];
    cbn [amount_anchors map blank_of primary_amount]; reflexivity.
Qed.

(** X7. The year reaches the page in two strings only, the title and the
    footer line that names the form: but for these two, the pages of the
    same call for two years are the same. *)
Theorem year_is_in_title_and_footer_only (k : LayoutCall) (c : Canvas)
    (y : string) :
  List.filter (fun m => negb (drawn_at_any (year_anchors k) m))
    (added_marks c (render (with_year y k) c))
  = List.filter (fun m => negb (drawn_at_any (year_anchors k) m))
      (added_marks c (render k c))
  /\ length (List.filter (drawn_at_any (year_anchors k))
               (added_marks c (render k c))) = 2%nat.
Proof.
  rewrite !added_marks_render.
  destruct c, k as [? ? ? ? ? ? [] []| | | |]; split;
    cbv [with_year]; run_canvas; hide_texts; vm_compute; reflexivity.
Qed.

(** ** One canvas, two forms *)

(** X8. On a canvas that comes in black, drawing a second form after a
    first adds the marks of the first and then those of the second, each
    the same as on a new canvas of its own: no routine leaves behind a
    state that changes what the next one draws. *)
Theorem two_forms_on_one_canvas (k1 k2 : LayoutCall) (c : Canvas) :
  fillColor c = black ->
  added_marks c (render k2 (render k1 c))
  = (rendered ("", k1) ++ rendered ("", k2))%list.
Proof.
  intros Hc. unfold added_marks.
  rewrite (frame (render k2) (render_replay k2) (render k1 c)).
  rewrite (frame (render k1) (render_replay k1) c) at 1.
  cbn [graft page]. rewrite <- app_assoc, drop_app_length.
  rewrite (page_render_fill k1 c), (page_render_fill k2 (render k1 c)).
  destruct (exit_state k1 c) as (_ & _ & _ & _ & Hf).
  assert (Hb : fillColor (render k1 c) = black).
  { rewrite Hf, Hc. by destruct k1 as [? ? ? ? ? ? [] ?| | | |]. }
  rewrite Hb, Hc.
  f_equal.
  - destruct k1 as [? ? ? ? ? ? [] []| | | |];
      cbv [rendered fst snd canvas_filled Canvas_new]; run_canvas; reflexivity.
  - destruct k2 as [? ? ? ? ? ? [] []| | | |];
      cbv [rendered fst snd canvas_filled Canvas_new]; run_canvas; reflexivity.
Qed.

Lemma two_forms_on_one_canvas_witness :
  let k1 := call_w2 "Acme Corp" (75432.00)%py W2.employee_name
              W2.employee_ssn W2.ein W2.year false true in
  let k2 := call_1098 "Home Loans Inc" (12345.00)%py F1098.borrower_name
              F1098.borrower_tin F1098.lender_tin F1098.year in
  let c := Canvas_new "both.pdf" letter in
  fillColor c = black
  /\ added_marks c (render k2 (render k1 c))
     = (rendered ("", k1) ++ rendered ("", k2))%list.
Proof.
  cbv zeta. split; [reflexivity|].
  apply (two_forms_on_one_canvas
           (call_w2 "Acme Corp" (75432.00)%py W2.employee_name
              W2.employee_ssn W2.ein W2.year false true)
           (call_1098 "Home Loans Inc" (12345.00)%py F1098.borrower_name
              F1098.borrower_tin F1098.lender_tin F1098.year)
           (Canvas_new "both.pdf" letter)).
  reflexivity.
Defined.

(** ** The files and directories of a run *)

Lemma write_all_lookup (os : list (string * list Mark)) :
  forall (fs : gmap string (list Mark)) (i : nat) (o : string * list Mark),
    NoDup (map fst os) -> os !! i = Some o ->
    write_all fs os !! o.1 = Some o.2.
Proof.
  induction os as [|o' os IH]; intros fs i o Hnd Hi; [by destruct i|].
  cbn [map] in Hnd. apply NoDup_cons in Hnd as [Hout Hnd].
  change (write_all (<[o'.1:=o'.2]> fs) os !! o.1 = Some o.2).
  destruct i as [|i]; cbn in Hi.
  - injection Hi as ->. by rewrite write_all_notin, lookup_insert_eq.
  - by apply (IH _ i).
Qed.

Lemma dirs_produce (rs : list (string * LayoutCall)) :
  forall w, dirs (foldl produce w rs) = dirs w.
Proof.
  induction rs as [|r rs IH]; intros w; [reflexivity|].
  cbn [foldl]. by rewrite IH.
Qed.

Lemma dirs_print (s : string) (w : World) : dirs (print s w) = dirs w.
Proof. reflexivity. Qed.

Lemma outputs_NoDup : NoDup (map fst outputs).
Proof. apply (bool_decide_unpack _). vm_compute. exact I. Qed.

(** X9. Whatever the world it starts from, and whatever was in the files
    before, a run leaves under the path of each request the page drawn
    for that request on a new canvas: every file of a run reads back as
    what was saved. *)
Theorem main_files_read_back (w : World) :
  Forall (fun r => files (main w).1 !! out_path r.1 = Some (rendered r))
    requests.
Proof.
  rewrite main_files. apply Forall_lookup_2. intros i r Hi.
  apply (write_all_lookup outputs (files w) i (out_path r.1, rendered r)).
  - exact outputs_NoDup.
  - unfold outputs. rewrite list_lookup_fmap, Hi. reflexivity.
Qed.

(** X10. A run creates the output directory and removes none; it writes
    no file outside that directory, and none that is not a [.pdf]; and a
    file under any other path is left as it was. *)
Theorem main_touches_only_its_files (w : World) (p : string) :
  p ∉ map fst outputs ->
  files (main w).1 !! p = files w !! p
  /\ dirs (main w).1 = {[ OUTPUT_DIR ]} ∪ dirs w
  /\ forallb (fun o => String.prefix (OUTPUT_DIR +:+ "/") o.1
                       && String.eqb
                            (String.substring (String.length o.1 - 4) 4 o.1)
                            ".pdf")
       outputs = true.
Proof.
  intros Hp. split_and!.
  - rewrite main_files. by apply write_all_notin.
  - rewrite main_world, dirs_print, dirs_produce. reflexivity.
  - vm_compute. reflexivity.
Qed.

Lemma main_touches_only_its_files_witness :
  let w := mkWorld ∅ {[ "docs/notes.txt" := [] ]} [] in
  ("docs/notes.txt" ∉ map fst outputs)
  /\ files (main w).1 !! "docs/notes.txt" = Some [].
Proof.
  cbv zeta.
  assert (H : "docs/notes.txt" ∉ map fst outputs).
  { apply (bool_decide_unpack _). vm_compute. exact I. }
  split; [exact H|].
  destruct (main_touches_only_its_files
              (mkWorld ∅ {[ "docs/notes.txt" := [] ]} [])
              "docs/notes.txt" H) as [H1 _].
  rewrite H1. reflexivity.
Defined.

(** ** The entries of the manifest *)

(** X11. Each entry of the manifest has the keys of its kind and no
    other: the file name and the type, then either the blank mark alone
    or the counterparty under the key of its form ([employer], [payer],
    [lender]) with the amount, and the low-quality mark when set; the
    counterparty recorded is the one drawn on the form. *)
Theorem manifest_entries_shape (w : World) :
  Forall2 (fun r (d : gmap string PyVal) =>
      dom d = entry_keys r.2
      /\ d !! name_key r.2
         = (if blank_of r.2 then None else Some (VStr (counterparty r.2))))
    requests (main w).2.
Proof.
  rewrite main_manifest. unfold requests, manifest.
  repeat first
    [ apply List.Forall2_nil
    | apply List.Forall2_cons;
      [ split; [apply (bool_decide_unpack _); vm_compute; exact I
               | vm_compute; reflexivity] |] ].
Qed.

(** * The derived amounts, to the cent *)

(** ** Rounding to binary64 *)

Lemma iter_pos_nat {A : Type} (f : A -> A) (p : positive) :
  forall x, SpecFloat.iter_pos f p x = Nat.iter (Pos.to_nat p) f x.
Proof.
  induction p as [p IH|p IH|]; intros x; cbn [SpecFloat.iter_pos].
  - rewrite !IH, Pos2Nat.inj_xI. cbn [Nat.iter].
    rewrite <- Nat.iter_add, Nat.iter_succ_r.
    f_equal. lia.
  - rewrite !IH, Pos2Nat.inj_xO.
    rewrite <- Nat.iter_add. f_equal. lia.
  - reflexivity.
Qed.

Lemma digits2_pos_bounds (p : positive) :
  2 ^ (Z.pos (digits2_pos p) - 1) <= Z.pos p < 2 ^ Z.pos (digits2_pos p).
Proof.
  induction p as [p IH|p IH|]; cbn [digits2_pos].
  - rewrite Pos2Z.inj_succ.
    replace (Z.succ (Z.pos (digits2_pos p)) - 1) with (Z.pos (digits2_pos p) - 1 + 1) by lia.
    rewrite Z.pow_succ_r by lia.
    rewrite Z.pow_add_r by lia. lia.
  - rewrite Pos2Z.inj_succ.
    replace (Z.succ (Z.pos (digits2_pos p)) - 1) with (Z.pos (digits2_pos p) - 1 + 1) by lia.
    rewrite Z.pow_succ_r by lia.
    rewrite Z.pow_add_r by lia. lia.
  - cbn. lia.
Qed.

Lemma shr_inv_start (m0 : Z) :
  0 <= m0 -> shr_inv m0 0 (Build_shr_record m0 false false).
Proof.
  intros H. split; [exact H|]. exists 0. cbn. split_and!; lia || tauto.
Qed.

Lemma shr_inv_step (m0 i : Z) (x : shr_record) :
  0 <= i -> shr_inv m0 i x -> shr_inv m0 (i + 1) (shr_1 x).
Proof.
  intros Hi [Hm (t & Ht & Hr & Hs)].
  destruct x as [m r s]. cbn [shr_m shr_r shr_s] in *.
  assert (Hp : 2 ^ (i + 1) = 2 * 2 ^ i) by (rewrite Z.pow_add_r; lia).
  assert (Hp2 : 2 ^ (i + 1 + 1) = 4 * 2 ^ i) by (rewrite !Z.pow_add_r; lia).
  assert (Hpos : 0 < 2 ^ i) by (apply Z.pow_pos_nonneg; lia).
  destruct Hs as [Hs1 Hs2].
  destruct m as [|[p|p|]|]; try lia; cbn [shr_1];
    unfold shr_inv; cbn [shr_m shr_r shr_s];
    (split; [lia|]);
    exists ((if r then 2 ^ i else 0) + t);
    rewrite Hp2; rewrite Hp in Ht;
    destruct r, s; cbn [orb]; split_and!; try lia;
    (split; intros H; try discriminate; try reflexivity; try lia;
     try (specialize (Hs1 eq_refl); lia); try (apply Hs2; lia)).
Qed.

Lemma shr_inv_iter (m0 : Z) (n : nat) (x : shr_record) :
  shr_inv m0 0 x -> shr_inv m0 (Z.of_nat n) (Nat.iter n shr_1 x).
Proof.
  intros H. induction n as [|n IH]; [exact H|].
  rewrite Nat2Z.inj_succ. cbn [Nat.iter].
  replace (Z.succ (Z.of_nat n)) with (Z.of_nat n + 1) by lia.
  apply shr_inv_step; [lia | exact IH].
Qed.

(** Rounding to nearest, ties to even, of the shifted mantissa: within
    half a unit of the mantissa before the shift. *)
Lemma shr_inv_round (m0 i : Z) (x : shr_record) :
  0 <= i -> shr_inv m0 i x ->
  let M := round_nearest_even (shr_m x) (loc_of_shr_record x) in
  Z.abs (2 * m0 - M * 2 ^ (i + 1)) <= 2 ^ i
  /\ shr_m x <= M <= shr_m x + 1
  /\ shr_m x * 2 ^ i <= m0 < (shr_m x + 1) * 2 ^ i.
Proof.
  intros Hi [Hm (t & Ht & Hr & Hs1 & Hs2)].
  destruct x as [m r s]. cbn [shr_m shr_r shr_s] in *.
  assert (Hp : 2 ^ (i + 1) = 2 * 2 ^ i) by (rewrite Z.pow_add_r; lia).
  assert (Hpos : 0 < 2 ^ i) by (apply Z.pow_pos_nonneg; lia).
  rewrite Hp in *.
  destruct r, s; cbn [loc_of_shr_record round_nearest_even].
  - split_and!; nia.
  - specialize (Hs1 eq_refl). subst t.
    destruct (Z.even m); split_and!; nia.
  - assert (t <> 0) by (intros E; specialize (Hs2 E); discriminate).
    split_and!; nia.
  - specialize (Hs1 eq_refl). subst t. split_and!; nia.
Qed.

Lemma digits2_pos_unique (p : positive) (k : Z) :
  2 ^ (k - 1) <= Z.pos p < 2 ^ k -> Z.pos (digits2_pos p) = k.
Proof.
  intros [Hl Hu]. pose proof (digits2_pos_bounds p) as [Bl Bu].
  set (d := Z.pos (digits2_pos p)) in *.
  assert (Hd : 0 < d) by (unfold d; lia).
  assert (Hk : 0 < k).
  { destruct (Z_lt_le_dec 0 k) as [|Hk]; [assumption|].
    exfalso. destruct (Z.eq_dec k 0) as [->|].
    - cbn in Hu. lia.
    - rewrite (Z.pow_neg_r 2 k) in Hu by lia. lia. }
  destruct (Z_lt_le_dec d k) as [Hlt|Hge].
  - exfalso. assert (2 ^ d <= 2 ^ (k - 1)) by (apply Z.pow_le_mono_r; lia). lia.
  - destruct (Z_lt_le_dec k d) as [Hlt|Hle]; [|lia].
    exfalso. assert (2 ^ k <= 2 ^ (d - 1)) by (apply Z.pow_le_mono_r; lia). lia.
Qed.

(** The rounding of a mantissa of at least 53 bits to binary64, away from
    the ends of the exponent range: a finite float within half a unit in
    its last place. *)
Lemma binary_round_aux_spec (mx : positive) (ex : Z) :
  let d := Z.pos (digits2_pos mx) in
  53 <= d -> -1074 <= d + ex - 53 -> d + ex - 52 <= 971 ->
  exists (m : positive) (e : Z),
    binary_round_aux prec emax false (Z.pos mx) ex loc_Exact
    = S754_finite false m e
    /\ d + ex - 53 <= e <= d + ex - 52
    /\ Z.abs (2 * Z.pos mx - Z.pos m * 2 ^ (e - ex + 1)) <= 2 ^ (e - ex)
    /\ 2 ^ 52 <= Z.pos m < 2 ^ 53.
Proof.
  intros d Hd Hlo Hhi.
  pose proof (digits2_pos_bounds mx) as [Bl Bu]. fold d in Bl, Bu.
  set (n := d - 53).
  assert (Hn : 0 <= n) by (unfold n; lia).
  (* the first shift *)
  assert (H1 : exists x1,
             shr_fexp prec emax (Z.pos mx) ex loc_Exact = (x1, ex + n)
             /\ shr_inv (Z.pos mx) n x1).
  { unfold shr_fexp, fexp, SpecFloat.emin, prec, emax.
    cbn [Zdigits2 shr_record_of_loc]. fold d.
    replace (Z.max (d + ex - 53) (3 - 1024 - 53) - ex) with n by (unfold n; lia).
    unfold shr. destruct n as [|p|p] eqn:En; try lia.
    - eexists. split; [rewrite Z.add_0_r; reflexivity|].
      apply shr_inv_start. lia.
    - eexists. split; [reflexivity|].
      rewrite iter_pos_nat, <- (positive_nat_Z p).
      apply shr_inv_iter, shr_inv_start. lia. }
  destruct H1 as (x1 & E1 & I1).
  pose proof (shr_inv_round _ _ _ Hn I1) as (R1 & R2 & R3). cbv zeta in *.
  set (M := round_nearest_even (shr_m x1) (loc_of_shr_record x1)) in *.
  assert (Pn : 0 < 2 ^ n) by (apply Z.pow_pos_nonneg; lia).
  assert (Ed : 2 ^ d = 2 ^ 53 * 2 ^ n).
  { unfold n. rewrite <- Z.pow_add_r by lia. f_equal. lia. }
  assert (Ed1 : 2 ^ (d - 1) = 2 ^ 52 * 2 ^ n).
  { unfold n. rewrite <- Z.pow_add_r by lia. f_equal. lia. }
  assert (Hm1 : 2 ^ 52 <= shr_m x1 < 2 ^ 53) by (split; nia).
  assert (HM : 2 ^ 52 <= M <= 2 ^ 53) by lia.
  assert (Pn1 : 2 ^ (n + 1) = 2 * 2 ^ n) by (rewrite Z.pow_add_r; lia).
  unfold binary_round_aux. rewrite E1. cbv beta iota.
  change (round_nearest_even (shr_m x1) (loc_of_shr_record x1)) with M.
  clearbody M.
  destruct (Z.eq_dec M (2 ^ 53)) as [EM|NM].
  - (* the rounding carried into a 54th bit *)
    rewrite EM.
    exists (4503599627370496%positive), (ex + n + 1).
    split; [|split; [|split]].
    + unfold shr_fexp, fexp, SpecFloat.emin, prec, emax.
      change (Zdigits2 (2 ^ 53)) with 54.
      replace (Z.max (54 + (ex + n) - 53) (3 - 1024 - 53) - (ex + n)) with 1
        by (unfold n; lia).
      cbn - [Z.leb Z.sub]. 
      destruct (Z.leb_spec (ex + n + 1) (1024 - 53)); [reflexivity|unfold n in *; lia].
    + unfold n; lia.
    + replace (ex + n + 1 - ex + 1) with (n + 1 + 1) by lia.
      replace (ex + n + 1 - ex) with (n + 1) by lia.
      rewrite Z.pow_add_r by lia. rewrite EM in R1.
      change (Z.pos 4503599627370496) with (2 ^ 52).
      change (2 ^ 53) with (2 ^ 52 * 2) in R1. lia.
    + change (Z.pos 4503599627370496) with (2 ^ 52). lia.
  - (* the common case *)
    destruct M as [|pM|pM] eqn:EqM; try lia.
    exists pM, (ex + n).
    assert (DM : Zdigits2 (Z.pos pM) = 53).
    { cbn [Zdigits2]. apply digits2_pos_unique. lia. }
    split; [|split; [|split]].
    + unfold shr_fexp, fexp, SpecFloat.emin, prec, emax. rewrite DM.
      replace (Z.max (53 + (ex + n) - 53) (3 - 1024 - 53) - (ex + n)) with 0
        by (unfold n; lia).
      cbn [shr shr_record_of_loc shr_m].
      destruct (Z.leb_spec (ex + n) (1024 - 53)); [reflexivity|unfold n in *; lia].
    + unfold n; lia.
    + replace (ex + n - ex + 1) with (n + 1) by lia.
      replace (ex + n - ex) with n by lia. exact R1.
    + lia.
Qed.

Lemma pos_iter_xO (p d : positive) :
  Z.pos (Pos.iter xO p d) = Z.pos p * 2 ^ Z.pos d.
Proof.
  induction d as [|d IH] using Pos.peano_ind.
  - cbn. lia.
  - rewrite Pos.iter_succ, Pos2Z.inj_succ, Z.pow_succ_r by lia.
    rewrite Pos2Z.inj_xO, IH. lia.
Qed.

(** A mantissa of 53 bits is kept as it is. *)
Lemma binary_round_aux_exact (mx : positive) (ex : Z) :
  Z.pos (digits2_pos mx) = 53 -> -1074 <= ex -> ex <= 971 ->
  binary_round_aux prec emax false (Z.pos mx) ex loc_Exact
  = S754_finite false mx ex.
Proof.
  intros Hd Hlo Hhi.
  unfold binary_round_aux, shr_fexp, fexp, SpecFloat.emin, prec, emax.
  cbn [Zdigits2 shr_record_of_loc]. rewrite Hd.
  replace (Z.max (53 + ex - 53) (3 - 1024 - 53) - ex) with 0 by lia.
  cbn [shr shr_m loc_of_shr_record round_nearest_even Zdigits2
       shr_record_of_loc].
  rewrite Hd.
  replace (Z.max (53 + ex - 53) (3 - 1024 - 53) - ex) with 0 by lia.
  cbn [shr shr_m].
  destruct (Z.leb_spec ex (1024 - 53)); [reflexivity|lia].
Qed.

(** [float(n)] for a positive integer below 2^53 is [n] itself, with its
    mantissa shifted up to 53 bits. *)
Lemma of_int_finite (n : positive) :
  Z.pos n < 2 ^ 53 ->
  exists (m : positive) (k : Z),
    of_int (Z.pos n) = S754_finite false m (- k)
    /\ k = 53 - Z.pos (digits2_pos n)
    /\ 0 <= k
    /\ Z.pos m = Z.pos n * 2 ^ k
    /\ 2 ^ 52 <= Z.pos m < 2 ^ 53.
Proof.
  intros Hn.
  pose proof (digits2_pos_bounds n) as [Bl Bu].
  set (dn := Z.pos (digits2_pos n)) in *.
  assert (Hdn : 1 <= dn <= 53).
  { split; [unfold dn; lia|].
    destruct (Z_lt_le_dec 53 dn) as [H|]; [|lia].
    exfalso. assert (2 ^ 53 <= 2 ^ (dn - 1)) by (apply Z.pow_le_mono_r; lia).
    lia. }
  set (k := 53 - dn).
  assert (Hk : 0 <= k) by (unfold k; lia).
  assert (Hal : exists mz, shl_align n 0 (fexp prec emax (dn + 0)) = (mz, - k)
                           /\ Z.pos mz = Z.pos n * 2 ^ k).
  { unfold shl_align, fexp, SpecFloat.emin, prec, emax.
    replace (Z.max (dn + 0 - 53) (3 - 1024 - 53) - 0) with (- k)
      by (unfold k; lia).
    replace (Z.max (dn + 0 - 53) (3 - 1024 - 53)) with (- k)
      by (unfold k; lia).
    destruct k as [|pk|pk] eqn:Ek; try lia.
    - exists n. split; [reflexivity|]. cbn. lia.
    - exists (Pos.iter xO n pk). split; [reflexivity|]. apply pos_iter_xO. }
  destruct Hal as (mz & Eal & Emz).
  assert (Bmz : 2 ^ 52 <= Z.pos mz < 2 ^ 53).
  { rewrite Emz.
    assert (E53 : 2 ^ 53 = 2 ^ dn * 2 ^ k)
      by (unfold k; rewrite <- Z.pow_add_r by lia; f_equal; lia).
    assert (E52 : 2 ^ 52 = 2 ^ (dn - 1) * 2 ^ k)
      by (unfold k; rewrite <- Z.pow_add_r by lia; f_equal; lia).
    assert (0 < 2 ^ k) by (apply Z.pow_pos_nonneg; lia).
    rewrite E53, E52. split; nia. }
  assert (Dmz : Z.pos (digits2_pos mz) = 53)
    by (apply digits2_pos_unique; exact Bmz).
  exists mz, k. split_and!; try lia.
  unfold of_int, binary_normalize, binary_round.
  fold dn. rewrite Eal. apply binary_round_aux_exact; [exact Dmz | lia | lia].
Qed.

(** The product of two positive binary64 numbers with full mantissas,
    away from the ends of the exponent range. *)
Lemma mul_spec (mx my : positive) (ex ey : Z) :
  2 ^ 52 <= Z.pos mx < 2 ^ 53 -> 2 ^ 52 <= Z.pos my < 2 ^ 53 ->
  -1074 <= ex + ey + 52 -> ex + ey + 54 <= 971 ->
  exists (m : positive) (e : Z),
    mul (S754_finite false mx ex) (S754_finite false my ey)
    = S754_finite false m e
    /\ ex + ey + 52 <= e <= ex + ey + 54
    /\ Z.abs (2 * (Z.pos mx * Z.pos my) - Z.pos m * 2 ^ (e - (ex + ey) + 1))
       <= 2 ^ (e - (ex + ey))
    /\ 2 ^ 52 <= Z.pos m < 2 ^ 53.
Proof.
  intros Hx Hy Hlo Hhi.
  pose proof (digits2_pos_bounds (mx * my)) as [Bl Bu].
  set (d := Z.pos (digits2_pos (mx * my))) in *.
  rewrite Pos2Z.inj_mul in Bl, Bu.
  assert (P104 : 2 ^ 104 = 2 ^ 52 * 2 ^ 52) by reflexivity.
  assert (P106 : 2 ^ 106 = 2 ^ 53 * 2 ^ 53) by reflexivity.
  assert (Hprod : 2 ^ 104 <= Z.pos mx * Z.pos my < 2 ^ 106).
  { rewrite P104, P106. change (2 ^ 52) with 4503599627370496 in *.
    change (2 ^ 53) with 9007199254740992 in *. split; nia. }
  assert (Hd : 105 <= d <= 106).
  { split.
    - destruct (Z_lt_le_dec d 105) as [H|]; [|lia].
      exfalso. assert (2 ^ d <= 2 ^ 104) by (apply Z.pow_le_mono_r; lia). lia.
    - destruct (Z_lt_le_dec 106 d) as [H|]; [|lia].
      exfalso. assert (2 ^ 106 <= 2 ^ (d - 1)) by (apply Z.pow_le_mono_r; lia).
      lia. }
  destruct (binary_round_aux_spec (mx * my) (ex + ey))
    as (m & e & Er & He & Ha & Bm); cbv zeta; fold d; try lia.
  fold d in He. rewrite Pos2Z.inj_mul in Ha.
  exists m, e. split_and!; try lia.
  exact Er.
Qed.

(** Hundredths: when 100 times the float is within a half of an integer,
    that integer is its number of cents. *)
Lemma cents_near (m : positive) (e t : Z) :
  e < 0 ->
  2 * Z.abs (100 * Z.pos m - t * 2 ^ (- e)) < 2 ^ (- e) ->
  cents m e = t.
Proof.
  intros He H.
  unfold cents, round_half_even_scaled.
  destruct (Z.leb_spec 0 e) as [|_]; [lia|]. cbv zeta.
  set (D := 2 ^ (- e)) in *.
  assert (HD : 0 < D) by (apply Z.pow_pos_nonneg; lia).
  set (N := Z.pos m * 100).
  pose proof (Z.div_mod N D ltac:(lia)) as Hdm.
  pose proof (Z.mod_pos_bound N D HD) as Hmod.
  set (q := N / D) in *. set (r := N mod D) in *.
  assert (HN : N = 100 * Z.pos m) by (unfold N; lia).
  assert (Hb : - D < 2 * (N - t * D) < D) by lia.
  assert (Hq : t - 1 <= q <= t) by nia.
  destruct (Z.eq_dec q t) as [Eq|Nq].
  - rewrite Eq in *.
    destruct (Z.compare_spec (2 * r) D) as [E|L|G]; [lia|reflexivity|lia].
  - assert (Eq : q = t - 1) by lia. rewrite Eq in *.
    destruct (Z.compare_spec (2 * r) D) as [E|L|G]; [lia|lia|lia].
Qed.

(** A whole amount [n] times a rate [C * 2^eC], formatted: when 100 times
    the exact product is within 15/32 of the integer [t], the float
    product prints as [t] cents. *)
Lemma rate_cents (n C : positive) (eC t b : Z) :
  2 ^ 52 <= Z.pos C < 2 ^ 53 ->
  Z.pos n < 2 ^ b -> 0 <= b <= 53 -> eC + b <= -12 -> -1000 <= eC ->
  2 * Z.abs (100 * (Z.pos n * Z.pos C) - t * 2 ^ (- eC)) + 2 ^ (- eC - 4)
    <= 2 ^ (- eC) ->
  format_money (mul (of_int (Z.pos n)) (S754_finite false C eC))
  = money_of_cents t.
Proof.
  intros HC Hn Hb HeC Hlo H.
  assert (Hn53 : Z.pos n < 2 ^ 53).
  { assert (2 ^ b <= 2 ^ 53) by (apply Z.pow_le_mono_r; lia). lia. }
  destruct (of_int_finite n Hn53) as (mn & k & En & Ek & Hk & Emn & Bmn).
  pose proof (digits2_pos_bounds n) as [Bl Bu].
  set (dn := Z.pos (digits2_pos n)) in *.
  assert (Hdn : 1 <= dn <= b).
  { split; [unfold dn; lia|].
    destruct (Z_lt_le_dec b dn) as [Hlt|]; [|lia].
    exfalso. assert (2 ^ b <= 2 ^ (dn - 1)) by (apply Z.pow_le_mono_r; lia).
    lia. }
  destruct (mul_spec mn C (- k) eC Bmn HC) as (m & e & Em & He & Ha & Bm);
    try lia.
  rewrite En, Em.
  assert (Hc : cents m e = t).
  { apply cents_near; [lia|].
    set (sg := e - (- k + eC)) in *.
    assert (Hsg : 52 <= sg <= 54) by (unfold sg; lia).
    set (S := 2 ^ sg) in *.
    set (Dv := 2 ^ (- e)).
    set (K := 2 ^ k) in *.
    set (F := 2 ^ (- eC)) in *.
    set (F16 := 2 ^ (- eC - 4)) in *.
    assert (PS : 0 < S) by (apply Z.pow_pos_nonneg; lia).
    assert (PK : 0 < K) by (apply Z.pow_pos_nonneg; lia).
    assert (PF16 : 0 < F16) by (apply Z.pow_pos_nonneg; lia).
    assert (EF : F = 16 * F16).
    { unfold F, F16. replace (- eC) with (- eC - 4 + 4) at 1 by lia.
      rewrite Z.pow_add_r by lia. change (2 ^ 4) with 16. lia. }
    assert (ES1 : 2 ^ (sg + 1) = 2 * S)
      by (unfold S; rewrite Z.pow_add_r by lia; lia).
    assert (EDS : Dv * S = F * K).
    { unfold Dv, S, F, K. rewrite <- !Z.pow_add_r by lia.
      f_equal. unfold sg. lia. }
    assert (HDv : 2048 <= Dv).
    { unfold Dv. change 2048 with (2 ^ 11). apply Z.pow_le_mono_r; lia. }
    rewrite ES1, Emn in Ha. fold K in Ha.
    set (A := Z.pos n * Z.pos C) in *.
    replace (Z.pos n * K * Z.pos C) with (A * K) in Ha by (unfold A; lia).
    set (mS := Z.pos m * S) in *.
    set (AK := A * K) in *.
    set (FK := F * K) in *.
    set (KF16 := K * F16) in *.
    replace (Z.pos m * (2 * S)) with (2 * mS) in Ha by (unfold mS; ring).
    assert (G1 : - S <= 2 * AK - 2 * mS <= S) by lia.
    set (u := 100 * A - t * F) in *.
    assert (G2 : - (F - F16) <= 2 * u <= F - F16) by lia.
    assert (G3 : - (FK - KF16) <= 2 * (100 * AK - t * FK) <= FK - KF16).
    { replace (2 * (100 * AK - t * FK)) with (K * (2 * u))
        by (unfold AK, FK, u; ring).
      replace (FK - KF16) with (K * (F - F16)) by (unfold FK, KF16; ring).
      split.
      - rewrite <- Z.mul_opp_r. apply Z.mul_le_mono_nonneg_l; lia.
      - apply Z.mul_le_mono_nonneg_l; lia. }
    assert (E16 : 16 * KF16 = Dv * S).
    { rewrite EDS. unfold KF16, FK. rewrite EF. ring. }
    assert (G4 : 2048 * S <= Dv * S)
      by (apply Z.mul_le_mono_nonneg_r; lia).
    set (Y := 2 * (100 * Z.pos m - t * Dv)).
    assert (EY : Y * S = 200 * mS - 2 * (t * FK)).
    { rewrite <- EDS. unfold Y, mS. ring. }
    assert (G5 : - (Dv * S) < Y * S < Dv * S) by lia.
    assert (G6 : - Dv < Y < Dv).
    { split.
      - apply (Z.mul_lt_mono_pos_r S); [lia|].
        rewrite Z.mul_opp_l. lia.
      - apply (Z.mul_lt_mono_pos_r S); lia. }
    unfold Y in G6.
    lia. }
  unfold format_money, format_2f, money_of_cents. rewrite Hc. reflexivity.
Qed.

(** ** Whole amounts: the derived values to the cent *)

Lemma fed_tax_cents (w : positive) :
  Z.pos w < 2 ^ 43 ->
  format_money (of_int (Z.pos w) * 0.22)%py = money_of_cents (22 * Z.pos w).
Proof.
  intros Hw. apply (rate_cents w _ (-55) _ 43); lia.
Qed.

Lemma ss_tax_cents (w : positive) :
  Z.pos w < 2 ^ 43 ->
  format_money (of_int (Z.pos w) * 0.062)%py
  = money_of_cents ((62 * Z.pos w + 5) / 10).
Proof.
  intros Hw.
  pose proof (Z.div_mod (62 * Z.pos w + 5) 10 ltac:(lia)) as Hd.
  pose proof (Z.mod_pos_bound (62 * Z.pos w + 5) 10 ltac:(lia)) as Hm.
  set (t := (62 * Z.pos w + 5) / 10) in *.
  set (r := (62 * Z.pos w + 5) mod 10) in *.
  assert (Ht : -4 <= 62 * Z.pos w - 10 * t <= 4) by lia.
  apply (rate_cents w _ (-57) _ 43); lia.
Qed.

Lemma medicare_tax_cents (w : positive) :
  Z.pos w < 2 ^ 43 -> (145 * Z.pos w) mod 100 <> 50 ->
  format_money (of_int (Z.pos w) * 0.0145)%py
  = money_of_cents ((145 * Z.pos w + 50) / 100).
Proof.
  intros Hw Htie.
  pose proof (Z.div_mod (145 * Z.pos w + 50) 100 ltac:(lia)) as Hd.
  pose proof (Z.mod_pos_bound (145 * Z.pos w + 50) 100 ltac:(lia)) as Hm.
  set (t := (145 * Z.pos w + 50) / 100) in *.
  set (r := (145 * Z.pos w + 50) mod 100) in *.
  assert (E : (145 * Z.pos w) mod 100 = (r + 50) mod 100).
  { replace (145 * Z.pos w) with (r + 50 + (t - 1) * 100) by lia.
    apply Z.mod_add. lia. }
  assert (Hr0 : r <> 0).
  { intros E0. rewrite E0 in E. rewrite E in Htie. apply Htie. reflexivity. }
  assert (Hr5 : r mod 5 = 0).
  { replace r with ((29 * Z.pos w + 10 - 20 * t) * 5) by lia.
    apply Z.mod_mul. lia. }
  assert (Hr : 5 <= r <= 95).
  { pose proof (Z.div_mod r 5 ltac:(lia)). lia. }
  assert (Ht : -45 <= 145 * Z.pos w - 100 * t <= 45) by lia.
  apply (rate_cents w _ (-59) _ 43); lia.
Qed.

Lemma qualified_cents (d : positive) :
  Z.pos d < 2 ^ 41 ->
  format_money (of_int (Z.pos d) * 0.8)%py = money_of_cents (80 * Z.pos d).
Proof.
  intros Hd. apply (rate_cents d _ (-53) _ 41); lia.
Qed.

Lemma principal_cents (i : positive) :
  Z.pos i < 2 ^ 36 ->
  format_money (of_int (Z.pos i) * 25)%py = money_of_cents (2500 * Z.pos i).
Proof.
  intros Hi. apply (rate_cents i _ (-48) _ 36); lia.
Qed.

(** The amounts of [main] are whole: the literal [75432.00] is
    [float(75432)]. *)
Example whole_literals :
  (75432.00)%py = of_int 75432 /\ (5678.00)%py = of_int 5678
  /\ (12345.00)%py = of_int 12345 /\ money_of_cents 1659504 = "$16,595.04".
Proof. vm_compute. done. Qed.

Lemma w2_derived_boxes (c : Canvas) (e : string) (w : float)
    (n s i y : string) (q : bool) :
  let pg := added_marks c (draw_w2 c e w n s i y false q) in
  texts_at At.w2_box2 pg = [format_money (w * 0.22)%py]
  /\ texts_at At.w2_box4 pg = [format_money (w * 0.062)%py]
  /\ texts_at At.w2_box6 pg = [format_money (w * 0.0145)%py].
Proof.
  cbv zeta. rewrite added_marks_w2. destruct q; split_and!; reflexivity.
Qed.

Lemma div_1098_derived_boxes (c : Canvas) (p : string) (a : float)
    (n t pt y : string) :
  texts_at At.lower_value (added_marks c (draw_1099div c p a n t pt y))
  = [format_money (a * 0.8)%py]
  /\ texts_at At.lower_value (added_marks c (draw_1098 c p a n t pt y))
     = [format_money (a * 25)%py].
Proof.
  rewrite added_marks_1099div, added_marks_1098. split; reflexivity.
Qed.

(** X12. For wages of a whole number of dollars below 2^43, Box 2 of the
    W-2 shows exactly 22% of the wages and Box 4 shows 6.2% of the wages
    rounded to the nearest cent: the binary64 product and the money
    format lose nothing. *)
Theorem w2_withholding_to_the_cent (c : Canvas) (e n s i y : string)
    (q : bool) (w : positive) :
  Z.pos w < 2 ^ 43 ->
  let pg := added_marks c (draw_w2 c e (of_int (Z.pos w)) n s i y false q) in
  texts_at At.w2_box2 pg = [money_of_cents (22 * Z.pos w)]
  /\ texts_at At.w2_box4 pg = [money_of_cents ((62 * Z.pos w + 5) / 10)].
Proof.
  intros Hw. cbv zeta.
  destruct (w2_derived_boxes c e (of_int (Z.pos w)) n s i y q)
    as (H2 & H4 & _).
  rewrite H2, H4, fed_tax_cents, ss_tax_cents by assumption.
  split; reflexivity.
Qed.

Lemma w2_withholding_to_the_cent_witness :
  let c := Canvas_new "docs/w2-acme-2024.pdf" letter in
  let pg := added_marks c
              (draw_w2 c "Acme Corp" (of_int 75432) W2.employee_name
                 W2.employee_ssn W2.ein W2.year false false) in
  75432 < 2 ^ 43
  /\ texts_at At.w2_box2 pg = [money_of_cents (22 * 75432)]
  /\ texts_at At.w2_box4 pg = [money_of_cents ((62 * 75432 + 5) / 10)].
Proof.
  cbv zeta. split; [reflexivity|].
  apply (w2_withholding_to_the_cent
           (Canvas_new "docs/w2-acme-2024.pdf" letter) "Acme Corp"
           W2.employee_name W2.employee_ssn W2.ein W2.year false
           75432%positive).
  reflexivity.
Defined.

(** X13. For wages of a whole number of dollars below 2^43, Box 6 of the
    W-2 shows 1.45% of the wages rounded to the nearest cent, unless that
    amount falls exactly on a half cent. *)
Theorem w2_medicare_to_the_cent (c : Canvas) (e n s i y : string)
    (q : bool) (w : positive) :
  Z.pos w < 2 ^ 43 -> (145 * Z.pos w) mod 100 <> 50 ->
  texts_at At.w2_box6
    (added_marks c (draw_w2 c e (of_int (Z.pos w)) n s i y false q))
  = [money_of_cents ((145 * Z.pos w + 50) / 100)].
Proof.
  intros Hw Htie.
  destruct (w2_derived_boxes c e (of_int (Z.pos w)) n s i y q)
    as (_ & _ & H6).
  rewrite H6, medicare_tax_cents by assumption.
  reflexivity.
Qed.

Lemma w2_medicare_to_the_cent_witness :
  let c := Canvas_new "docs/w2-acme-2024.pdf" letter in
  75432 < 2 ^ 43
  /\ (145 * 75432) mod 100 <> 50
  /\ texts_at At.w2_box6
       (added_marks c
          (draw_w2 c "Acme Corp" (of_int 75432) W2.employee_name
             W2.employee_ssn W2.ein W2.year false false))
     = [money_of_cents ((145 * 75432 + 50) / 100)].
Proof.
  cbv zeta. split; [reflexivity|]. split; [discriminate|].
  apply (w2_medicare_to_the_cent
           (Canvas_new "docs/w2-acme-2024.pdf" letter) "Acme Corp"
           W2.employee_name W2.employee_ssn W2.ein W2.year false
           75432%positive); [reflexivity | discriminate].
Defined.

(** On a half cent the amount printed is what the binary64 product
    happens to be: for the wages 92150.00 of the second request, 1.45% is
    1336.175 and Box 6 shows the cent below. *)
Example medicare_on_a_half_cent :
  (145 * 92150) mod 100 = 50
  /\ (145 * 92150 + 50) / 100 = 133618
  /\ texts_at At.w2_box6
       (rendered ("w2-techstart-2024.pdf",
          call_w2 "TechStart Inc" (92150.00)%py W2.employee_name
            W2.employee_ssn W2.ein W2.year false false))
     = ["$1,336.17"].
Proof. vm_compute. done. Qed.

(** X14. For a whole number of dollars, Box 1b of the 1099-DIV shows
    exactly 80% of the dividends (below 2^41) and Box 2 of the 1098
    exactly 25 times the interest (below 2^36). *)
Theorem dividends_and_principal_to_the_cent (c : Canvas)
    (p n t pt y : string) (a : positive) :
  Z.pos a < 2 ^ 36 ->
  texts_at At.lower_value
    (added_marks c (draw_1099div c p (of_int (Z.pos a)) n t pt y))
  = [money_of_cents (80 * Z.pos a)]
  /\ texts_at At.lower_value
       (added_marks c (draw_1098 c p (of_int (Z.pos a)) n t pt y))
     = [money_of_cents (2500 * Z.pos a)].
Proof.
  intros Ha.
  destruct (div_1098_derived_boxes c p (of_int (Z.pos a)) n t pt y)
    as (Hd & Hp).
  rewrite Hd, Hp, qualified_cents, principal_cents; [done | lia | lia].
Qed.

Lemma dividends_and_principal_to_the_cent_witness :
  let c := Canvas_new "docs/1098-mortgage-2024.pdf" letter in
  12345 < 2 ^ 36
  /\ texts_at At.lower_value
       (added_marks c
          (draw_1098 c "Home Loans Inc" (of_int 12345) F1098.borrower_name
             F1098.borrower_tin F1098.lender_tin F1098.year))
     = [money_of_cents (2500 * 12345)].
Proof.
  cbv zeta. split; [reflexivity|].
  apply (dividends_and_principal_to_the_cent
           (Canvas_new "docs/1098-mortgage-2024.pdf" letter)
           "Home Loans Inc" F1098.borrower_name F1098.borrower_tin
           F1098.lender_tin F1098.year 12345%positive).
  reflexivity.
Defined.
